(** * Feed health monitor: [scripts/check_feeds.py]

    A shallow embedding of the feed checker ([check_feed]) and of the report
    driver ([main]), together with the properties of their results.

    What the script observes of its environment is made explicit:
    - the outcome of [ET.parse] on a file is carried by the path ([Path]);
    - [email.utils.parsedate_to_datetime], [datetime.strftime], the system
      clock and the location [FEEDS_DIR] are parameters of the development;
    - printing, reading the clock and raising are effects of the monad [M]. *)

From Stdlib Require Import List ZArith NArith Bool String Ascii Lia.
From Stdlib Require Import DecimalString PeanoNat Sorted Permutation.
Import ListNotations.

Set Implicit Arguments.
Set Warnings "-register-all".

(* ================================================================== *)
(** ** Python values *)

Module Py.

(** A Python [str] read from a document: a sequence of Unicode code points. *)
Definition str := list N.

(** The code points of an ASCII literal of the source. *)
Definition u (s : string) : str := map N_of_ascii (list_ascii_of_string s).

Fixpoint str_eqb (a b : str) : bool :=
  match a, b with
  | [], [] => true
  | x :: a', y :: b' => N.eqb x y && str_eqb a' b'
  | _, _ => false
  end.

(** [str.isspace] on one code point: the white-space table of CPython. *)
Definition isspace (c : N) : bool :=
  ((9 <=? c) && (c <=? 13) || (28 <=? c) && (c <=? 32)
   || (c =? 133) || (c =? 160) || (c =? 5760)
   || (8192 <=? c) && (c <=? 8202)
   || (c =? 8232) || (c =? 8233) || (c =? 8239) || (c =? 8287)
   || (c =? 12288))%N.

Fixpoint lstrip (s : str) : str :=
  match s with
  | c :: s' => if isspace c then lstrip s' else s
  | [] => []
  end.

Definition rstrip (s : str) : str := rev (lstrip (rev s)).

(** [s.strip()] *)
Definition strip (s : str) : str := rstrip (lstrip s).

(** Truth value of a sequence: empty is false. *)
Definition truthy {A} (l : list A) : bool :=
  match l with [] => false | _ :: _ => true end.

(** [x or ""] for an optional string *)
Definition or_empty (x : option str) : str :=
  match x with
  | Some s => if truthy s then s else []
  | None => []
  end.

(** [str(n)] for an [int] *)
Definition str_of_nat (n : nat) : string := NilZero.string_of_uint (Nat.to_uint n).
Definition str_of_Z (z : Z) : string := NilZero.string_of_int (Z.to_int z).

Definition nl : string := String (ascii_of_nat 10) EmptyString.

(** Exceptions the script meets. [OtherException] stands for every class
    the script never names (OSError, LookupError, ...). *)
Inductive exn :=
| ParseError (msg : string)
| TypeError
| ValueError
| SystemExit (code : Z)
| OtherException (class : string).

Inductive result (A : Type) :=
| Ok (a : A)
| Raise (e : exn).
Arguments Raise {A} e.

(** The part of the world the script changes: how often the clock was read
    and the lines printed so far (oldest first). *)
Record world := World { now_calls : nat; stdout : list string }.

Definition M (A : Type) := world -> result A * world.

Definition ret {A} (a : A) : M A := fun w => (Ok a, w).

Definition bind {A B} (c : M A) (k : A -> M B) : M B :=
  fun w => match c w with
           | (Ok a, w') => k a w'
           | (Raise e, w') => (Raise e, w')
           end.

Definition raise {A} (e : exn) : M A := fun w => (Raise e, w).

Definition lift {A} (r : result A) : M A := fun w => (r, w).

(** [print(s)] *)
Definition print (s : string) : M unit :=
  fun w => (Ok tt, World (now_calls w) (stdout w ++ [s])).

(** [for x in l: body(x)] *)
Fixpoint for_each {A} (l : list A) (body : A -> M unit) : M unit :=
  match l with
  | [] => ret tt
  | x :: l' => bind (body x) (fun _ => for_each l' body)
  end.

(** [sys.exit(code)] *)
Definition sys_exit {A} (code : Z) : M A := raise (SystemExit code).

End Py.

Import Py.

Declare Scope py_scope.
Delimit Scope py_scope with py.
Notation "x <- c ;; k" := (bind c (fun x => k))
  (at level 61, c at next level, right associativity) : py_scope.
Notation "' pat <- c ;; k" := (bind c (fun x => match x with pat => k end))
  (at level 61, pat pattern, c at next level, right associativity) : py_scope.
Notation "c ;; k" := (bind c (fun _ => k))
  (at level 61, right associativity) : py_scope.

(* ================================================================== *)
(** ** [datetime] *)

Module Datetime.

Local Open Scope Z_scope.

(** A [datetime] object. [tzinfo] is the offset from UTC in seconds of an
    aware object and [None] for a naive one. *)
Record datetime := mkdatetime {
  year : Z; month : Z; day : Z;
  hour : Z; minute : Z; second : Z; microsecond : Z;
  tzinfo : option Z
}.

(** A [timedelta], as its total number of microseconds. *)
Definition timedelta := Z.

Definition us_per_second : Z := 1000000.
Definition us_per_day : Z := 86400 * us_per_second.

(** [timedelta(days=n)] *)
Definition timedelta_of_days (n : Z) : timedelta := n * us_per_day.

(** [td.days]: the whole days of the normalised value (rounded down). *)
Definition days (td : timedelta) : Z := td / us_per_day.

Definition is_leap (y : Z) : bool :=
  (y mod 4 =? 0) && (negb (y mod 100 =? 0) || (y mod 400 =? 0)).

Definition days_before_year (y : Z) : Z :=
  let p := y - 1 in p * 365 + p / 4 - p / 100 + p / 400.

Definition days_before_month (y m : Z) : Z :=
  nth (Z.to_nat m) [0; 0; 31; 59; 90; 120; 151; 181; 212; 243; 273; 304; 334] 0
  + (if (2 <? m) && is_leap y then 1 else 0).

(** [d.toordinal()]: day 1 is 0001-01-01. *)
Definition toordinal (d : datetime) : Z :=
  days_before_year (year d) + days_before_month (year d) (month d) + day d.

(** Microseconds of the wall-clock reading since the start of day 0. *)
Definition wall_us (d : datetime) : Z :=
  toordinal d * us_per_day
  + (hour d * 3600 + minute d * 60 + second d) * us_per_second
  + microsecond d.

(** [a > b]. Two aware objects compare by their UTC instants, two naive ones
    by their wall-clock readings; mixing them raises [TypeError]. *)
Definition gt (a b : datetime) : result bool :=
  match tzinfo a, tzinfo b with
  | Some oa, Some ob =>
      Ok (wall_us b - ob * us_per_second <? wall_us a - oa * us_per_second)
  | None, None => Ok (wall_us b <? wall_us a)
  | _, _ => Raise TypeError
  end.

(** [a - b], under the same rule. *)
Definition sub (a b : datetime) : result timedelta :=
  match tzinfo a, tzinfo b with
  | Some oa, Some ob =>
      Ok (wall_us a - wall_us b + ob * us_per_second - oa * us_per_second)
  | None, None => Ok (wall_us a - wall_us b)
  | _, _ => Raise TypeError
  end.

(** The reading [d] of a UTC clock as the aware object that
    [datetime.now(timezone.utc)] builds. *)
Definition in_utc (d : datetime) : datetime :=
  mkdatetime (year d) (month d) (day d) (hour d) (minute d) (second d)
             (microsecond d) (Some 0).

End Datetime.

Import Datetime.

(* ================================================================== *)
(** ** [xml.etree.ElementTree] *)

Module ET.

(** An element: its tag, its text (before the first child) and its
    children in document order. *)
Inductive Element :=
| Elem (tag : str) (text : option str) (children : list Element).

Definition tag (e : Element) : str := let 'Elem t _ _ := e in t.
Definition text (e : Element) : option str := let 'Elem _ x _ := e in x.
Definition children (e : Element) : list Element := let 'Elem _ _ c := e in c.

(** [e.iter(t)]: [e] and everything below it with tag [t], in document
    order. *)
Fixpoint iter (t : str) (e : Element) : list Element :=
  match e with
  | Elem tg _ ch =>
      (if str_eqb tg t then [e] else []) ++ flat_map (iter t) ch
  end.

(** [e.findall(".//" + t)]: every element strictly below [e] with tag [t]. *)
Definition findall_descendants (t : str) (e : Element) : list Element :=
  flat_map (iter t) (children e).

(** [e.find(t)]: the first child of [e] with tag [t], or [None]. *)
Definition find (t : str) (e : Element) : option Element :=
  List.find (fun c => str_eqb (tag c) t) (children e).

End ET.

Import ET.

(** A path in the feeds directory: its file name and what [ET.parse] gives
    for it, the root element of the document or the exception raised. *)
Record Path := mkPath { name : string; parsed : result Element }.

(** [ET.parse(p).getroot()] *)
Definition ET_parse (p : Path) : M Element := lift (parsed p).

(* ================================================================== *)
(** ** The feed checker *)

Local Open Scope string_scope.
Local Open Scope list_scope.

Definition STALE_DAYS : Z := 30.

(** The local variables of the scan over the items. *)
Record tally := mkTally {
  missing_titles : nat;
  missing_links : nat;
  missing_dates : nat;
  newest_date : option datetime
}.

(** [x is None or not (x.text or "").strip()] *)
Definition absent_or_blank (x : option Element) : bool :=
  match x with
  | None => true
  | Some e => negb (truthy (strip (or_empty (text e))))
  end.

(** The finding on a field, as the script words it:
    [f"{k}/{total} entries missing {what}"]. *)
Definition missing_msg (k total : nat) (what : string) : string :=
  str_of_nat k ++ "/" ++ str_of_nat total ++ " entries missing " ++ what.

Section Checker.

(** [email.utils.parsedate_to_datetime]; [None] when the call raises. *)
Variable parsedate_to_datetime : str -> option datetime.

(** [d.strftime(fmt)] *)
Variable strftime : datetime -> string -> string.

(** The UTC reading of the system clock at its [k]-th reading. *)
Variable clock : nat -> datetime.

(** [datetime.now(timezone.utc)] *)
Definition datetime_now_utc : M datetime :=
  fun w => (Ok (in_utc (clock (now_calls w))),
            World (S (now_calls w)) (stdout w)).

Definition stale_msg (age : timedelta) (newest : datetime) : string :=
  "Stale: newest entry is " ++ str_of_Z (days age) ++ " days old ("
  ++ strftime newest "%Y-%m-%d" ++ ")".

(** The body of the [try] of lines 62-67: the new value of [newest_date],
    or the exception raised by the parse or by the comparison. *)
Definition try_newest (newest : option datetime) (pub_text : str)
  : result (option datetime) :=
  match parsedate_to_datetime (strip pub_text) with
  | None => Raise ValueError
  | Some dt =>
      match newest with
      | None => Ok (Some dt)
      | Some nd =>
          match gt dt nd with
          | Ok b => Ok (if b then Some dt else newest)
          | Raise e => Raise e
          end
      end
  end.

(** One round of the loop over the items (lines 50-69). Both exceptions
    the [try] can raise are caught by [except Exception: pass]. *)
Definition scan_item (t : tally) (item : Element) : tally :=
  let title := find (u "title") item in
  let link := find (u "link") item in
  let pub_date := find (u "pubDate") item in
  let mt := if absent_or_blank title
            then S (missing_titles t) else missing_titles t in
  let ml := if absent_or_blank link
            then S (missing_links t) else missing_links t in
  if absent_or_blank pub_date
  then mkTally mt ml (S (missing_dates t)) (newest_date t)
  else
    match pub_date with
    | Some pd =>
        match text pd with
        | Some txt =>
            if truthy txt
            then match try_newest (newest_date t) txt with
                 | Ok nd => mkTally mt ml (missing_dates t) nd
                 | Raise _ => mkTally mt ml (missing_dates t) (newest_date t)
                 end
            else mkTally mt ml (missing_dates t) (newest_date t)
        | None => mkTally mt ml (missing_dates t) (newest_date t)
        end
    | None => mkTally mt ml (missing_dates t) (newest_date t)
    end.

Definition scan (items : list Element) : tally :=
  fold_left scan_item items (mkTally 0 0 0 None).

(** Lines 71-76: the findings on the fields, after the scan; the pair is
    [(warnings, errors)]. *)
Definition field_findings (t : tally) (total : nat)
  : list string * list string :=
  let warnings := [] in
  let errors := [] in
  let warnings :=
    if (0 <? missing_titles t)%nat
    then warnings ++ [missing_msg (missing_titles t) total "title"]
    else warnings in
  let errors :=
    if (0 <? missing_links t)%nat
    then errors ++ [missing_msg (missing_links t) total "link"]
    else errors in
  let warnings :=
    if (0 <? missing_dates t)%nat
    then warnings ++ [missing_msg (missing_dates t) total "pubDate"]
    else warnings in
  (warnings, errors).

(** Lines 79-85: the freshness check. *)
Definition check_freshness (t : tally) (warnings : list string)
  : M (list string) :=
  match newest_date t with
  | Some nd =>
      (now <- datetime_now_utc ;;
       age <- lift (sub now nd) ;;
       if (timedelta_of_days STALE_DAYS <? age)%Z
       then ret (warnings ++ [stale_msg age nd])
       else ret warnings)%py
  | None => ret warnings
  end.

(** Lines 87-90: the detail lines of verbose mode. *)
Definition print_details (verbose : bool) (items : list Element) (t : tally)
  : M unit :=
  if verbose
  then (print ("  Entries: " ++ str_of_nat (List.length items)) ;;
        match newest_date t with
        | Some nd => print ("  Newest:  " ++ strftime nd "%Y-%m-%d %H:%M")
        | None => ret tt
        end)%py
  else ret tt.

(** [check_feed(feed_path, verbose)]: returns [(ok, warnings, errors)]. *)
Definition check_feed (feed_path : Path) (verbose : bool)
  : M (bool * list string * list string) :=
  fun w =>
    match ET_parse feed_path w with
    | (Raise (ParseError e), w1) =>
        (Ok (false, [], [("Invalid XML: " ++ e)%string]), w1)
    | (Raise e, w1) => (Raise e, w1)
    | (Ok root, w1) =>
        let items := findall_descendants (u "item") root in
        if negb (truthy items)
        then (Ok (false, [], ["No <item> entries found"]), w1)
        else
          let t := scan items in
          let '(warnings, errors) := field_findings t (List.length items) in
          (warnings <- check_freshness t warnings ;;
           print_details verbose items t ;;
           let ok := (List.length errors =? 0)%nat in
           ret (ok, warnings, errors))%py w1
    end.

End Checker.

(* ================================================================== *)
(** ** The report driver *)

(** [name] matches [feed_*.xml]. *)
Definition ends_with (suffix s : string) : bool :=
  (String.length suffix <=? String.length s)%nat
  && String.eqb (substring (String.length s - String.length suffix)
                           (String.length suffix) s) suffix.

Definition fnmatch_feed_xml (n : string) : bool :=
  prefix "feed_" n && ends_with ".xml" (substring 5 (String.length n - 5) n).

(** [dir.glob("feed_*.xml")] over the entries of the directory. *)
Definition glob_feed_xml (entries : list Path) : list Path :=
  filter (fun p => fnmatch_feed_xml (name p)) entries.

(** [sorted(paths)]: the paths of one directory, ordered by file name. *)
Fixpoint insert_path (p : Path) (l : list Path) : list Path :=
  match l with
  | [] => [p]
  | q :: l' => if String.leb (name p) (name q) then p :: l
               else q :: insert_path p l'
  end.

Fixpoint sorted (l : list Path) : list Path :=
  match l with
  | [] => []
  | p :: l' => insert_path p (sorted l')
  end.

(** [f"{s:4s}"] *)
Fixpoint spaces (n : nat) : string :=
  match n with O => "" | S n' => " " ++ spaces n' end.

Definition ljust (width : nat) (s : string) : string :=
  s ++ spaces (width - String.length s).

(** The counters of [main]. *)
Record counts := mkCounts {
  healthy : nat;
  warn_count : nat;
  error_count : nat
}.

Section Driver.

Variable parsedate_to_datetime : str -> option datetime.
Variable strftime : datetime -> string -> string.
Variable clock : nat -> datetime.

(** [str(FEEDS_DIR)] *)
Variable FEEDS_DIR : string.

(** The body of the loop over the feeds (lines 118-134). *)
Definition report_feed (verbose : bool) (c : counts) (feed_path : Path)
  : M counts :=
  ('(ok, warnings, errors) <-
     check_feed parsedate_to_datetime strftime clock feed_path verbose ;;
   let '(status, c') :=
     if ok && negb (truthy warnings)
     then ("OK", mkCounts (S (healthy c)) (warn_count c) (error_count c))
     else if ok && truthy warnings
     then ("WARN", mkCounts (healthy c) (S (warn_count c)) (error_count c))
     else ("FAIL", mkCounts (healthy c) (warn_count c) (S (error_count c))) in
   print ("  [" ++ ljust 4 status ++ "] " ++ name feed_path) ;;
   for_each warnings (fun w => print ("         ^ " ++ w)) ;;
   for_each errors (fun e => print ("         ! " ++ e)) ;;
   ret c')%py.

Fixpoint for_feeds (verbose : bool) (feeds : list Path) (c : counts)
  : M counts :=
  match feeds with
  | [] => ret c
  | feed_path :: rest =>
      (c' <- report_feed verbose c feed_path ;; for_feeds verbose rest c')%py
  end.

(** Lines 136-143: the summary and the exit status. *)
Definition summary (total : nat) (c : counts) : M unit :=
  (print (nl ++ "--- Summary ---") ;;
   print ("  Healthy: " ++ str_of_nat (healthy c) ++ "/" ++ str_of_nat total) ;;
   (if (0 <? warn_count c)%nat
    then print ("  Warnings: " ++ str_of_nat (warn_count c) ++ "/"
                ++ str_of_nat total)
    else ret tt) ;;
   (if (0 <? error_count c)%nat
    then print ("  Errors: " ++ str_of_nat (error_count c) ++ "/"
                ++ str_of_nat total)
    else ret tt) ;;
   sys_exit (if (0 <? error_count c)%nat then 1 else 0)%Z)%py.

(** [main()]. [feeds_dir] is [None] when [FEEDS_DIR] does not exist and
    holds its entries otherwise; [verbose] is the parsed [--verbose]. *)
Definition main (feeds_dir : option (list Path)) (verbose : bool) : M unit :=
  match feeds_dir with
  | None =>
      (print ("Feeds directory not found: " ++ FEEDS_DIR) ;; sys_exit 1%Z)%py
  | Some entries =>
      let feeds := sorted (glob_feed_xml entries) in
      if negb (truthy feeds)
      then (print "No feed files found." ;; sys_exit 1%Z)%py
      else
        let total := List.length feeds in
        (print ("Checking " ++ str_of_nat total ++ " feeds in " ++ FEEDS_DIR
                ++ nl) ;;
         c <- for_feeds verbose feeds (mkCounts 0 0 0) ;;
         summary total c)%py
  end.

End Driver.

(* ================================================================== *)
(** ** Notions used to state the properties *)

(** [e] lies strictly below [r] in the document. *)
Inductive below (r : Element) : Element -> Prop :=
| below_child e : In e (children r) -> below r e
| below_deeper c e : In c (children r) -> below c e -> below r e.

(** The number of elements of the tree rooted at [e]. *)
Fixpoint size (e : Element) : nat :=
  match e with
  | Elem _ _ ch => S (list_sum (map size ch))
  end.

(** The status the interpreter ends the process with after [main]: the
    argument of [sys.exit], and 1 after any other uncaught exception. *)
Definition process_exit_status (r : result unit) : Z :=
  match r with
  | Ok _ => 0%Z
  | Raise (SystemExit code) => code
  | Raise _ => 1%Z
  end.

(** Every code point of [s] is white space (so is the empty string). *)
Definition blank (s : str) : Prop := Forall (fun c => isspace c = true) s.

(** The number of items whose field [field] is missing. *)
Definition count_missing (field : string) (items : list Element) : nat :=
  List.length
    (filter (fun item => absent_or_blank (find (u field) item)) items).

(** The publication date an item contributes: its [pubDate] is present,
    not blank, and parses. *)
Definition pub_date (pd : str -> option datetime) (item : Element)
  : option datetime :=
  match find (u "pubDate") item with
  | Some e =>
      if absent_or_blank (Some e) then None
      else pd (strip (or_empty (text e)))
  | None => None
  end.

(** The successfully parsed publication dates of the items, in order. *)
Definition parsed_dates (pd : str -> option datetime)
    (items : list Element) : list datetime :=
  flat_map (fun item => match pub_date pd item with
                        | Some d => [d]
                        | None => []
                        end) items.

Definition is_aware (d : datetime) : bool :=
  match tzinfo d with Some _ => true | None => false end.

(** The point in time a date denotes, in microseconds; a naive date is read
    as UTC. *)
Definition instant (d : datetime) : Z :=
  (wall_us d
   - match tzinfo d with Some off => off | None => 0 end * us_per_second)%Z.

(** Modelled on the words of the specification: the most recent of the
    dates, the earlier of two equally recent ones. *)
Definition later (a b : datetime) : datetime :=
  if (instant a <? instant b)%Z then b else a.

Definition most_recent (dates : list datetime) : option datetime :=
  match dates with
  | [] => None
  | d :: ds => Some (fold_left later ds d)
  end.

(** A line of the shape of the freshness warning. *)
Definition is_stale_warning (s : string) : bool := prefix "Stale: " s.

(** [[x]] when [b] holds, nothing otherwise. *)
Definition when {A} (b : bool) (x : A) : list A := if b then [x] else [].

(** The freshness warning for the newest date [newest] when the clock
    reads [now]: none without a date, none up to the threshold. *)
Definition freshness (strftime : datetime -> string -> string)
    (now : datetime) (newest : option datetime)
  : result (list string) :=
  match newest with
  | None => Ok []
  | Some nd =>
      match sub (in_utc now) nd with
      | Ok age =>
          Ok (when (timedelta_of_days STALE_DAYS <? age)%Z
                   (stale_msg strftime age nd))
      | Raise e => Raise e
      end
  end.

(** What [check_feed] returned for each feed of a run of the loop of [main],
    in the order of the run. *)
Fixpoint run_results (pd : str -> option datetime)
    (sf : datetime -> string -> string) (clock : nat -> datetime)
    (verbose : bool) (feeds : list Path) (c : counts) (w : world)
  : list (result (bool * list string * list string)) :=
  match feeds with
  | [] => []
  | feed_path :: rest =>
      fst (check_feed pd sf clock feed_path verbose w)
      :: match report_feed pd sf clock verbose c feed_path w with
         | (Ok c', w') => run_results pd sf clock verbose rest c' w'
         | (Raise _, _) => []
         end
  end.

(** The three buckets of the driver, as conditions on a returned result:
    OK is [ok] without warnings, WARN is [ok] with warnings, FAIL is
    [not ok]. *)
Definition is_healthy (r : result (bool * list string * list string))
  : bool :=
  match r with
  | Ok (ok, ws, _) => ok && negb (truthy ws)
  | Raise _ => false
  end.

Definition is_warn (r : result (bool * list string * list string)) : bool :=
  match r with
  | Ok (ok, ws, _) => ok && truthy ws
  | Raise _ => false
  end.

Definition failed (r : result (bool * list string * list string)) : bool :=
  match r with
  | Ok (ok, _, _) => negb ok
  | Raise _ => false
  end.

(** How many results of [rs] satisfy [p]. *)
Definition count {A} (p : A -> bool) (rs : list A) : nat :=
  List.length (filter p rs).

(** The first line of a run over [total] feeds. *)
Definition header (FEEDS_DIR : string) (total : nat) : string :=
  "Checking " ++ str_of_nat total ++ " feeds in " ++ FEEDS_DIR ++ nl.

(** The lines [check_feed] prints for [n] items and the newest date
    [newest]: none unless verbose. *)
Definition detail_lines (strftime : datetime -> string -> string)
    (verbose : bool) (n : nat) (newest : option datetime) : list string :=
  if verbose
  then ("  Entries: " ++ str_of_nat n)%string
       :: match newest with
          | Some nd => [("  Newest:  " ++ strftime nd "%Y-%m-%d %H:%M")%string]
          | None => []
          end
  else [].

(** The lines the driver prints for a file named [n] whose check returned
    [(ok, ws, es)]. *)
Definition report_lines (n : string) (ok : bool) (ws es : list string)
  : list string :=
  [("  [" ++ (if ok then if truthy ws then "WARN" else "OK  " else "FAIL")
    ++ "] " ++ n)%string]
  ++ map (fun x => ("         ^ " ++ x)%string) ws
  ++ map (fun x => ("         ! " ++ x)%string) es.

(** The counters after a file whose check returned [ok] and [ws]. *)
Definition bump (ok : bool) (ws : list string) (c : counts) : counts :=
  if ok
  then if truthy ws
       then mkCounts (healthy c) (S (warn_count c)) (error_count c)
       else mkCounts (S (healthy c)) (warn_count c) (error_count c)
  else mkCounts (healthy c) (warn_count c) (S (error_count c)).

(** The lines of the summary block. *)
Definition summary_lines (total : nat) (c : counts) : list string :=
  [(nl ++ "--- Summary ---")%string;
   ("  Healthy: " ++ str_of_nat (healthy c) ++ "/" ++ str_of_nat total)%string]
  ++ when (0 <? warn_count c)%nat
          ("  Warnings: " ++ str_of_nat (warn_count c) ++ "/"
           ++ str_of_nat total)%string
  ++ when (0 <? error_count c)%nat
          ("  Errors: " ++ str_of_nat (error_count c) ++ "/"
           ++ str_of_nat total)%string.

(** File names in the order of [sorted]. *)
Definition name_le (p q : Path) : Prop := String.leb (name p) (name q) = true.

(** Two dates are both aware or both naive. *)
Definition same_kind (a b : datetime) : bool :=
  Bool.eqb (is_aware b) (is_aware a).

(* ================================================================== *)
(** ** A concrete environment for the examples *)

Module Sample.

Definition aware (y m d : Z) : datetime := mkdatetime y m d 0 0 0 0 (Some 0%Z).
Definition naive (y m d : Z) : datetime := mkdatetime y m d 0 0 0 0 None.

(** What [parsedate_to_datetime] returns for the date strings of the
    examples: a zone of [+0000] gives an aware object, a zone of [-0000] a
    naive one. Every other string of the examples does not parse. *)
Definition parsedate (s : str) : option datetime :=
  if str_eqb s (u "Mon, 01 Jan 2024 00:00:00 +0000")
  then Some (aware 2024 1 1)
  else if str_eqb s (u "Mon, 05 Feb 2024 00:00:00 +0000")
  then Some (aware 2024 2 5)
  else if str_eqb s (u "Mon, 05 Feb 2024 00:00:00 -0000")
  then Some (naive 2024 2 5)
  else None.

Fixpoint zeros (n : nat) (s : string) : string :=
  match n with
  | O => s
  | S n' => String "0" (zeros n' s)
  end.

Definition zfill (width : nat) (z : Z) : string :=
  let s := str_of_Z z in zeros (width - String.length s) s.

(** [strftime] for the two formats of the script, on four-digit years. *)
Definition strftime (d : datetime) (fmt : string) : string :=
  let ymd := (zfill 4 (year d) ++ "-" ++ zfill 2 (month d) ++ "-"
              ++ zfill 2 (day d))%string in
  if String.eqb fmt "%Y-%m-%d" then ymd
  else if String.eqb fmt "%Y-%m-%d %H:%M"
  then (ymd ++ " " ++ zfill 2 (hour d) ++ ":" ++ zfill 2 (minute d))%string
  else fmt.

(** A clock that reads 2024-02-15 00:00:00 UTC. *)
Definition clock (k : nat) : datetime := naive 2024 2 15.

Definition w0 : world := World 0 [].

Definition field (tg txt : string) : Element := Elem (u tg) (Some (u txt)) [].

Definition item (fields : list Element) : Element := Elem (u "item") None fields.

Definition rss (items : list Element) : Element :=
  Elem (u "rss") None [Elem (u "channel") None items].

Definition entry (date : string) : Element :=
  item [field "title" "A post"; field "link" "https://example.org/a";
        field "pubDate" date].

Definition feed (n : string) (items : list Element) : Path :=
  mkPath n (Ok (rss items)).

(** One complete entry dated 45 days, respectively 10 days, before the
    reading of the clock. *)
Definition feed_45_days := feed "feed_old.xml" [entry "Mon, 01 Jan 2024 00:00:00 +0000"].
Definition feed_10_days := feed "feed_new.xml" [entry "Mon, 05 Feb 2024 00:00:00 +0000"].

(** A channel without items. *)
Definition feed_empty := feed "feed_empty.xml" [].

(** A file on which [ET.parse] raises [ParseError], and one on which it
    raises [LookupError] (an encoding the parser does not know). *)
Definition feed_malformed :=
  mkPath "feed_bad.xml"
         (Raise (ParseError "no element found: line 1, column 0")).
Definition feed_unknown_encoding :=
  mkPath "feed_enc.xml" (Raise (OtherException "LookupError")).

(** One entry whose date has the zone [-0000]. *)
Definition feed_naive := feed "feed_naive.xml" [entry "Mon, 05 Feb 2024 00:00:00 -0000"].

(** An entry of 1 January with zone [+0000], then one of 5 February with
    zone [-0000]. *)
Definition feed_mixed :=
  feed "feed_mixed.xml" [entry "Mon, 01 Jan 2024 00:00:00 +0000";
                         entry "Mon, 05 Feb 2024 00:00:00 -0000"].

(** Entries without link, one of them also with a blank title and an
    unparseable date. *)
Definition feed_no_links :=
  feed "feed_nolink.xml"
       [item [field "title" "  "; field "pubDate" "yesterday"];
        item [field "title" "B"]].

(** An item without link whose date has the zone [-0000]. *)
Definition feed_nolink_naive :=
  feed "feed_nolink_naive.xml"
       [item [field "title" "A post";
              field "pubDate" "Mon, 05 Feb 2024 00:00:00 -0000"]].

(** A file that cannot be read: [ET.parse] raises [PermissionError]. Its
    name sorts between [feed_new.xml] and [feed_old.xml]. *)
Definition feed_unreadable :=
  mkPath "feed_nope.xml" (Raise (OtherException "PermissionError")).

(** A clock that reads 2024-03-21 00:00:00 UTC, 45 days after
    5 February. *)
Definition clock_march (k : nat) : datetime := naive 2024 3 21.

Definition check (p : Path) (verbose : bool) :=
  check_feed parsedate strftime clock p verbose.

Definition run (feeds_dir : option (list Path)) (verbose : bool) :=
  main parsedate strftime clock "/srv/feeds" feeds_dir verbose.

End Sample.

(* ================================================================== *)
(** * Properties *)

(** ** Strings *)

Lemma str_eqb_eq (a b : str) : str_eqb a b = true <-> a = b.
Proof.
  revert b; induction a as [|x a IH]; intros [|y b]; simpl;
    try (split; congruence).
  rewrite andb_true_iff, N.eqb_eq, IH. split.
  - intros [-> ->]; reflexivity.
  - intros H; inversion H; auto.
Qed.

Lemma str_eqb_refl (a : str) : str_eqb a a = true.
Proof. apply str_eqb_eq; reflexivity. Qed.

Lemma lstrip_nil_iff (s : str) : lstrip s = [] <-> blank s.
Proof.
  unfold blank. induction s as [|c s IH]; simpl.
  - split; auto.
  - destruct (isspace c) eqn:Hc.
    + rewrite IH. split; intros H.
      * constructor; assumption.
      * inversion H; assumption.
    + split; [discriminate|]. intros H; inversion H; congruence.
Qed.

Lemma blank_lstrip (s : str) : blank (lstrip s) <-> blank s.
Proof.
  unfold blank. induction s as [|c s IH]; simpl; [tauto|].
  destruct (isspace c) eqn:Hc; [|tauto].
  rewrite IH. split; intros H.
  - constructor; assumption.
  - inversion H; assumption.
Qed.

Lemma blank_rev (s : str) : blank (rev s) <-> blank s.
Proof.
  unfold blank. rewrite !Forall_forall.
  split; intros H c Hc; apply H.
  - apply in_rev in Hc; exact Hc.
  - apply in_rev; exact Hc.
Qed.

Lemma rev_nil_iff {A} (l : list A) : rev l = [] <-> l = [].
Proof.
  split; intros H; [|subst; reflexivity].
  apply (f_equal (@rev A)) in H. rewrite rev_involutive in H. exact H.
Qed.

(** Trimming leaves nothing exactly when the string is all white space. *)
Lemma strip_nil_iff (s : str) : strip s = [] <-> blank s.
Proof.
  unfold strip, rstrip.
  etransitivity; [apply rev_nil_iff|].
  etransitivity; [apply lstrip_nil_iff|].
  etransitivity; [apply blank_rev|]. apply blank_lstrip.
Qed.

Lemma blank_or_empty (x : option str) :
  blank (or_empty x) <-> (forall s, x = Some s -> blank s).
Proof.
  destruct x as [s|]; simpl.
  - destruct s as [|c s]; simpl; split; intros H.
    + intros s' E; inversion E; constructor.
    + constructor.
    + intros s' E; inversion E; subst; assumption.
    + apply H; reflexivity.
  - split; [intros _ s E; discriminate | intros _; constructor].
Qed.

Lemma truthy_false_iff {A} (l : list A) : truthy l = false <-> l = [].
Proof. destruct l; simpl; split; congruence. Qed.

(** ** Elements *)

Lemma Element_nested_ind (P : Element -> Prop) :
  (forall tg tx ch, Forall P ch -> P (Elem tg tx ch)) -> forall e, P e.
Proof.
  intros step. fix IH 1. intros [tg tx ch]. apply step.
  induction ch as [|c ch IHch]; constructor; [apply IH | exact IHch].
Qed.

Lemma find_none_iff (tg : str) (item : Element) :
  find tg item = None <-> (forall c, In c (children item) -> tag c <> tg).
Proof.
  unfold find. split.
  - intros H c Hc E. pose proof (find_none _ _ H c Hc) as Hn.
    simpl in Hn. rewrite <- E, str_eqb_refl in Hn. discriminate.
  - intros H. induction (children item) as [|c l IH]; simpl; [reflexivity|].
    destruct (str_eqb (tag c) tg) eqn:E.
    + apply str_eqb_eq in E. exfalso. apply (H c); [left; reflexivity|exact E].
    + apply IH. intros c' Hc'. apply H. right; exact Hc'.
Qed.

Lemma find_some_child (tg : str) (item c : Element) :
  find tg item = Some c -> In c (children item) /\ tag c = tg.
Proof.
  unfold find. intros H. apply find_some in H. destruct H as [Hin E].
  split; [exact Hin | apply str_eqb_eq; exact E].
Qed.

Lemma in_iter_iff (t : str) (x e : Element) :
  In e (iter t x) <-> (e = x \/ below x e) /\ tag e = t.
Proof.
  revert e. induction x as [tg tx ch IH] using Element_nested_ind.
  intros e. simpl. rewrite in_app_iff, in_flat_map. split.
  - intros [H | [c [Hc H]]].
    + destruct (str_eqb tg t) eqn:E; [|contradiction].
      destruct H as [<- | []]. split; [left; reflexivity|].
      apply str_eqb_eq; exact E.
    + rewrite Forall_forall in IH. apply (IH c Hc) in H.
      destruct H as [[-> | Hb] Ht]; split; try exact Ht; right.
      * apply below_child; exact Hc.
      * apply below_deeper with c; assumption.
  - intros [[-> | Hb] Ht].
    + left. simpl in Ht. subst t. rewrite str_eqb_refl. left; reflexivity.
    + right. rewrite Forall_forall in IH. inversion Hb as [e' Hc | c e' Hc Hb'].
      * exists e. split; [exact Hc|]. apply IH; [exact Hc|]. auto.
      * exists c. split; [exact Hc|]. apply IH; [exact Hc|]. auto.
Qed.

(** [findall(".//t")] returns exactly the elements below the root whose tag
    is [t]. *)
Lemma in_findall_iff (t : str) (root e : Element) :
  In e (findall_descendants t root) <-> below root e /\ tag e = t.
Proof.
  unfold findall_descendants. rewrite in_flat_map. split.
  - intros [c [Hc H]]. apply in_iter_iff in H.
    destruct H as [[-> | Hb] Ht]; split; try exact Ht.
    + apply below_child; exact Hc.
    + apply below_deeper with c; assumption.
  - intros [Hb Ht]. inversion Hb as [e' Hc | c e' Hc Hb'].
    + exists e. split; [exact Hc|]. apply in_iter_iff. auto.
    + exists c. split; [exact Hc|]. apply in_iter_iff. auto.
Qed.

Lemma findall_nil_iff (t : str) (root : Element) :
  findall_descendants t root = [] <-> (forall e, below root e -> tag e <> t).
Proof.
  split.
  - intros H e Hb Ht.
    assert (Hin : In e (findall_descendants t root))
      by (apply in_findall_iff; auto).
    rewrite H in Hin. exact Hin.
  - intros H. destruct (findall_descendants t root) as [|e l] eqn:E;
      [reflexivity|].
    assert (Hin : In e (findall_descendants t root))
      by (rewrite E; left; reflexivity).
    apply in_findall_iff in Hin. destruct Hin as [Hb Ht].
    exfalso. exact (H e Hb Ht).
Qed.

(** A field is missing exactly when no child has its tag, or the first such
    child has no text or only white space. *)
Lemma absent_or_blank_iff (tg : str) (item : Element) :
  absent_or_blank (find tg item) = true <->
  (forall c, In c (children item) -> tag c <> tg)
  \/ (exists c, find tg item = Some c
                /\ forall s, text c = Some s -> blank s).
Proof.
  destruct (find tg item) as [c|] eqn:F; simpl.
  - rewrite negb_true_iff, truthy_false_iff, strip_nil_iff, blank_or_empty.
    split.
    + intros H. right. exists c. auto.
    + intros [H | [c' [E H]]].
      * apply find_none_iff in H. congruence.
      * inversion E; subst; exact H.
  - split; [|reflexivity]. intros _. left. apply find_none_iff. exact F.
Qed.

(** ** The scan over the items *)

Section ScanProperties.

Variable parsedate_to_datetime : str -> option datetime.
Variable strftime : datetime -> string -> string.
Variable clock : nat -> datetime.

Implicit Types (t : tally) (item : Element) (items : list Element).

Ltac split_scan_item :=
  unfold scan_item;
  repeat match goal with
         | |- context [if ?b then _ else _] => destruct b
         | |- context [match ?x with _ => _ end] => destruct x
         end; reflexivity.

Lemma scan_item_titles (t : tally) (item : Element) :
  missing_titles (scan_item parsedate_to_datetime t item)
  = if absent_or_blank (find (u "title") item)
    then S (missing_titles t) else missing_titles t.
Proof. split_scan_item. Qed.

Lemma scan_item_links (t : tally) (item : Element) :
  missing_links (scan_item parsedate_to_datetime t item)
  = if absent_or_blank (find (u "link") item)
    then S (missing_links t) else missing_links t.
Proof. split_scan_item. Qed.

Lemma scan_item_dates (t : tally) (item : Element) :
  missing_dates (scan_item parsedate_to_datetime t item)
  = if absent_or_blank (find (u "pubDate") item)
    then S (missing_dates t) else missing_dates t.
Proof. split_scan_item. Qed.

(** The counters of the loop count the items whose field is missing. *)
Lemma fold_scan_counts (items : list Element) (t0 : tally) :
  let t := fold_left (scan_item parsedate_to_datetime) items t0 in
  missing_titles t = missing_titles t0 + count_missing "title" items
  /\ missing_links t = missing_links t0 + count_missing "link" items
  /\ missing_dates t = missing_dates t0 + count_missing "pubDate" items.
Proof.
  revert t0. induction items as [|item items IH]; intros t0; simpl.
  - unfold count_missing; simpl. lia.
  - specialize (IH (scan_item parsedate_to_datetime t0 item)). simpl in IH.
    destruct IH as (Ht & Hl & Hd).
    rewrite Ht, Hl, Hd, scan_item_titles, scan_item_links, scan_item_dates.
    unfold count_missing; simpl.
    destruct (absent_or_blank (find (u "title") item));
      destruct (absent_or_blank (find (u "link") item));
      destruct (absent_or_blank (find (u "pubDate") item)); simpl; lia.
Qed.

Lemma scan_counts (items : list Element) :
  missing_titles (scan parsedate_to_datetime items) = count_missing "title" items
  /\ missing_links (scan parsedate_to_datetime items) = count_missing "link" items
  /\ missing_dates (scan parsedate_to_datetime items) = count_missing "pubDate" items.
Proof. exact (fold_scan_counts items (mkTally 0 0 0 None)). Qed.

Lemma count_missing_le (field : string) (items : list Element) :
  count_missing field items <= List.length items.
Proof. unfold count_missing. apply filter_length_le. Qed.

(** ** The result of [check_feed] *)

(** What [check_feed] returns on a document with items. *)
Lemma check_feed_items (feed_path : Path) (verbose : bool) (w : world)
    (root : Element) :
  parsed feed_path = Ok root ->
  let items := findall_descendants (u "item") root in
  let n := List.length items in
  let mt := count_missing "title" items in
  let ml := count_missing "link" items in
  let md := count_missing "pubDate" items in
  items <> [] ->
  fst (check_feed parsedate_to_datetime strftime clock feed_path verbose w)
  = match freshness strftime (clock (now_calls w))
                    (newest_date (scan parsedate_to_datetime items)) with
    | Ok stale =>
        Ok ((ml =? 0)%nat,
            when (0 <? mt)%nat (missing_msg mt n "title")
            ++ when (0 <? md)%nat (missing_msg md n "pubDate")
            ++ stale,
            when (0 <? ml)%nat (missing_msg ml n "link"))
    | Raise e => Raise e
    end.
Proof.
  intros Hp items n mt ml md Hne.
  assert (Htr : negb (truthy items) = false)
    by (destruct items; [congruence | reflexivity]).
  assert (Hok : (List.length (when (0 <? ml)%nat (missing_msg ml n "link"))
                 =? 0)%nat = (ml =? 0)%nat)
    by (destruct ml; reflexivity).
  destruct (scan_counts items) as (Ht & Hl & Hd).
  unfold check_feed, ET_parse, lift. rewrite Hp. fold items. rewrite Htr.
  unfold field_findings. rewrite Ht, Hl, Hd. fold n mt ml md.
  change (if (0 <? ml)%nat then [] ++ [missing_msg ml n "link"] else [])
    with (when (0 <? ml)%nat (missing_msg ml n "link")).
  cbv zeta. rewrite Hok.
  unfold check_freshness, freshness, print_details, bind, datetime_now_utc,
    print, lift, ret.
  destruct (newest_date (scan parsedate_to_datetime items)) as [nd|].
  - destruct (sub (in_utc (clock (now_calls w))) nd) as [age|e];
      [|reflexivity].
    destruct (timedelta_of_days STALE_DAYS <? age)%Z;
      destruct verbose; destruct (0 <? mt)%nat, (0 <? md)%nat;
      simpl; rewrite ?app_nil_r; reflexivity.
  - destruct verbose; destruct (0 <? mt)%nat, (0 <? md)%nat;
      simpl; reflexivity.
Qed.

End ScanProperties.

(** ** The early returns of [check_feed] *)

Section EarlyReturns.

Variable parsedate_to_datetime : str -> option datetime.
Variable strftime : datetime -> string -> string.
Variable clock : nat -> datetime.

Lemma check_feed_ParseError (feed_path : Path) (verbose : bool) (w : world)
    (msg : string) :
  parsed feed_path = Raise (ParseError msg) ->
  check_feed parsedate_to_datetime strftime clock feed_path verbose w
  = (Ok (false, [], [("Invalid XML: " ++ msg)%string]), w).
Proof.
  intros Hp. unfold check_feed, ET_parse, lift. rewrite Hp. reflexivity.
Qed.

Lemma check_feed_propagates (feed_path : Path) (verbose : bool) (w : world)
    (e : exn) :
  parsed feed_path = Raise e ->
  (forall msg, e <> ParseError msg) ->
  check_feed parsedate_to_datetime strftime clock feed_path verbose w
  = (Raise e, w).
Proof.
  intros Hp Hne. unfold check_feed, ET_parse, lift. rewrite Hp.
  destruct e; try reflexivity. exfalso. exact (Hne msg eq_refl).
Qed.

Lemma check_feed_without_items (feed_path : Path) (verbose : bool)
    (w : world) (root : Element) :
  parsed feed_path = Ok root ->
  findall_descendants (u "item") root = [] ->
  check_feed parsedate_to_datetime strftime clock feed_path verbose w
  = (Ok (false, [], ["No <item> entries found"]), w).
Proof.
  intros Hp Hi. unfold check_feed, ET_parse, lift. rewrite Hp, Hi.
  reflexivity.
Qed.

(** What is known of a result that [check_feed] returns for a document
    with items. *)
Lemma check_feed_items_inv (feed_path : Path) (verbose : bool)
    (w w' : world) (root : Element) (ok : bool) (ws es : list string) :
  parsed feed_path = Ok root ->
  let items := findall_descendants (u "item") root in
  let n := List.length items in
  let mt := count_missing "title" items in
  let ml := count_missing "link" items in
  let md := count_missing "pubDate" items in
  items <> [] ->
  check_feed parsedate_to_datetime strftime clock feed_path verbose w
  = (Ok (ok, ws, es), w') ->
  exists stale,
    freshness strftime (clock (now_calls w))
              (newest_date (scan parsedate_to_datetime items)) = Ok stale
    /\ ok = (ml =? 0)%nat
    /\ ws = when (0 <? mt)%nat (missing_msg mt n "title")
            ++ when (0 <? md)%nat (missing_msg md n "pubDate") ++ stale
    /\ es = when (0 <? ml)%nat (missing_msg ml n "link").
Proof.
  intros Hp items n mt ml md Hne Hc.
  pose proof (check_feed_items parsedate_to_datetime strftime clock
                feed_path verbose w Hp Hne) as H.
  rewrite Hc in H. simpl in H. fold items n mt ml md in H.
  destruct (freshness strftime (clock (now_calls w))
              (newest_date (scan parsedate_to_datetime items)))
    as [stale|e]; [|discriminate].
  inversion H; subst. exists stale. auto.
Qed.

End EarlyReturns.

(* ================================================================== *)
(** ** The verdict *)

(** C1. Whatever the file, the flag [ok] that [check_feed] returns is true
    exactly when the returned list of errors is empty. *)
Theorem check_feed_ok_iff_no_errors
    (parsedate_to_datetime : str -> option datetime)
    (strftime : datetime -> string -> string) (clock : nat -> datetime)
    (feed_path : Path) (verbose : bool) (w w' : world)
    (ok : bool) (ws es : list string) :
  check_feed parsedate_to_datetime strftime clock feed_path verbose w
  = (Ok (ok, ws, es), w') ->
  (ok = true <-> es = []).
Proof.
  intros Hc. destruct (parsed feed_path) as [root|e] eqn:Hp.
  - destruct (findall_descendants (u "item") root) as [|i0 rest] eqn:Hi.
    + rewrite (check_feed_without_items _ _ _ _ _ _ Hp Hi) in Hc.
      inversion Hc; subst. split; discriminate.
    + assert (Hne : findall_descendants (u "item") root <> [])
        by (rewrite Hi; discriminate).
      destruct (check_feed_items_inv _ _ _ _ _ _ Hp Hne Hc)
        as (stale & _ & Hok & _ & Hes).
      subst ok es.
      destruct (count_missing "link" (findall_descendants (u "item") root));
        simpl; split; congruence.
  - destruct e as [msg| | | |];
      try (rewrite (check_feed_propagates _ _ _ _ _ _ Hp) in Hc;
           [discriminate | intros m; discriminate]).
    rewrite (check_feed_ParseError _ _ _ _ _ _ Hp) in Hc.
    inversion Hc; subst. split; discriminate.
Qed.

Lemma check_feed_ok_iff_no_errors_witness :
  Sample.check Sample.feed_no_links false Sample.w0
  = (Ok (false,
         ["1/2 entries missing title"; "1/2 entries missing pubDate"],
         ["2/2 entries missing link"]), Sample.w0)
  /\ (false = true <-> ["2/2 entries missing link"] = []).
Proof.
  split; [reflexivity|].
  apply (@check_feed_ok_iff_no_errors Sample.parsedate Sample.strftime
           Sample.clock Sample.feed_no_links false Sample.w0 Sample.w0 false
           ["1/2 entries missing title"; "1/2 entries missing pubDate"]).
  reflexivity.
Defined.

(** C2, as the script has it. A document that parses and has no element
    with tag [item] anywhere below its root gets [ok = False], no warning
    and the single error "No <item> entries found"; nothing else runs: the
    clock is not read and nothing is printed, also in verbose mode. *)
Theorem check_feed_no_items
    (parsedate_to_datetime : str -> option datetime)
    (strftime : datetime -> string -> string) (clock : nat -> datetime)
    (feed_path : Path) (verbose : bool) (w : world) (root : Element) :
  parsed feed_path = Ok root ->
  (forall e, below root e -> tag e <> u "item") ->
  check_feed parsedate_to_datetime strftime clock feed_path verbose w
  = (Ok (false, [], ["No <item> entries found"]), w).
Proof.
  intros Hp Hnone. apply check_feed_without_items with root; [exact Hp|].
  apply findall_nil_iff. exact Hnone.
Qed.

Lemma below_rss_channel (e : Element) :
  below (Sample.rss []) e -> e = Elem (u "channel") None [].
Proof.
  intros H. inversion H as [e' Hc | c e' Hc Hb]; simpl in Hc.
  - destruct Hc as [<- | []]; reflexivity.
  - destruct Hc as [<- | []].
    inversion Hb as [e'' Hc' | c' e'' Hc' _]; simpl in Hc'; contradiction.
Qed.

Lemma check_feed_no_items_witness :
  Sample.check Sample.feed_empty true Sample.w0
  = (Ok (false, [], ["No <item> entries found"]), Sample.w0).
Proof.
  apply (@check_feed_no_items Sample.parsedate Sample.strftime Sample.clock
           Sample.feed_empty true Sample.w0 (Sample.rss [])).
  - reflexivity.
  - intros e Hb. rewrite (below_rss_channel Hb). vm_compute. discriminate.
Defined.

(** C2, counterexample. On a channel without items the text of the error is
    not "No entries found". *)
Lemma check_feed_no_items_text :
  fst (Sample.check Sample.feed_empty false Sample.w0)
  = Ok (false, [], ["No <item> entries found"])
  /\ fst (Sample.check Sample.feed_empty false Sample.w0)
     <> Ok (false, [], ["No entries found"]).
Proof. split; [reflexivity | vm_compute; discriminate]. Qed.

(** C3, as the script has it. When [ET.parse] raises [ParseError], the
    file gets [ok = False], no warning and the single error "Invalid XML: "
    followed by the parser's message; the driver prints the file as FAIL
    with that error, counts it and goes on with the remaining files. *)
Theorem parse_error_is_reported
    (parsedate_to_datetime : str -> option datetime)
    (strftime : datetime -> string -> string) (clock : nat -> datetime)
    (feed_path : Path) (rest : list Path) (verbose : bool) (w : world)
    (c : counts) (msg : string) :
  parsed feed_path = Raise (ParseError msg) ->
  check_feed parsedate_to_datetime strftime clock feed_path verbose w
  = (Ok (false, [], [("Invalid XML: " ++ msg)%string]), w)
  /\ for_feeds parsedate_to_datetime strftime clock verbose
               (feed_path :: rest) c w
     = for_feeds parsedate_to_datetime strftime clock verbose rest
         (mkCounts (healthy c) (warn_count c) (S (error_count c)))
         (World (now_calls w)
                (stdout w ++ [("  [FAIL] " ++ name feed_path)%string]
                 ++ [("         ! Invalid XML: " ++ msg)%string])).
Proof.
  intros Hp. split; [apply check_feed_ParseError; exact Hp|].
  simpl. unfold bind at 1. unfold report_feed. unfold bind at 1.
  rewrite (check_feed_ParseError _ _ _ _ verbose w Hp).
  unfold bind, print, ret; simpl. rewrite <- app_assoc. reflexivity.
Qed.

Lemma parse_error_is_reported_witness :
  parsed Sample.feed_malformed
  = Raise (ParseError "no element found: line 1, column 0")
  /\ (check_feed Sample.parsedate Sample.strftime Sample.clock
                 Sample.feed_malformed false Sample.w0
      = (Ok (false, [],
             [("Invalid XML: " ++ "no element found: line 1, column 0")%string]),
         Sample.w0)
      /\ for_feeds Sample.parsedate Sample.strftime Sample.clock false
                   [Sample.feed_malformed; Sample.feed_10_days]
                   (mkCounts 0 0 0) Sample.w0
         = for_feeds Sample.parsedate Sample.strftime Sample.clock false
             [Sample.feed_10_days] (mkCounts 0 0 1)
             (World 0
                ([] ++ [("  [FAIL] " ++ "feed_bad.xml")%string]
                 ++ [("         ! Invalid XML: "
                      ++ "no element found: line 1, column 0")%string]))).
Proof.
  split; [reflexivity|].
  apply (@parse_error_is_reported Sample.parsedate Sample.strftime
           Sample.clock Sample.feed_malformed [Sample.feed_10_days] false
           Sample.w0 (mkCounts 0 0 0) "no element found: line 1, column 0").
  reflexivity.
Defined.

(** C3, counterexample. [ET.parse] raises [LookupError] on a document that
    declares an encoding it does not know. [check_feed] returns no result
    for that file, and the run ends with the exception before the next
    file, [feed_new.xml], is checked. *)
Lemma unknown_encoding_ends_the_run :
  Sample.check Sample.feed_unknown_encoding false Sample.w0
  = (Raise (OtherException "LookupError"), Sample.w0)
  /\ Sample.run (Some [Sample.feed_10_days; Sample.feed_unknown_encoding])
                false Sample.w0
     = (Raise (OtherException "LookupError"),
        World 0 [("Checking 2 feeds in /srv/feeds" ++ nl)%string]).
Proof. split; reflexivity. Qed.

(* ================================================================== *)
(** ** Freshness *)

Section Freshness.

Variable parsedate_to_datetime : str -> option datetime.
Variable strftime : datetime -> string -> string.
Variable clock : nat -> datetime.

(** The subtraction of line 81 succeeds exactly on an aware date. *)
Lemma sub_now_aware (now nd : datetime) (off : Z) :
  tzinfo nd = Some off ->
  sub (in_utc now) nd
  = Ok (wall_us now - wall_us nd + off * us_per_second)%Z.
Proof.
  intros H. unfold sub. rewrite H. simpl. f_equal.
  unfold wall_us, toordinal; simpl. lia.
Qed.

Lemma sub_now_naive (now nd : datetime) :
  tzinfo nd = None -> sub (in_utc now) nd = Raise TypeError.
Proof. intros H. unfold sub. rewrite H. reflexivity. Qed.

Lemma freshness_inv (now : datetime) (newest : option datetime)
    (stale : list string) :
  freshness strftime now newest = Ok stale ->
  match newest with
  | None => stale = []
  | Some nd =>
      exists age, sub (in_utc now) nd = Ok age
                  /\ stale = when (timedelta_of_days STALE_DAYS <? age)%Z
                                  (stale_msg strftime age nd)
  end.
Proof.
  unfold freshness. destruct newest as [nd|].
  - destruct (sub (in_utc now) nd) as [age|e]; [|discriminate].
    intros H; inversion H. exists age. auto.
  - intros H; inversion H; reflexivity.
Qed.

(** A newest date without zone makes [check_feed] raise [TypeError]. *)
Lemma check_feed_naive_newest (feed_path : Path) (verbose : bool)
    (w : world) (root : Element) (nd : datetime) :
  parsed feed_path = Ok root ->
  findall_descendants (u "item") root <> [] ->
  newest_date (scan parsedate_to_datetime
                    (findall_descendants (u "item") root)) = Some nd ->
  tzinfo nd = None ->
  fst (check_feed parsedate_to_datetime strftime clock feed_path verbose w)
  = Raise TypeError.
Proof.
  intros Hp Hne Hn Hz.
  rewrite (check_feed_items _ _ _ _ verbose w Hp Hne), Hn.
  unfold freshness. rewrite (sub_now_naive _ _ Hz). reflexivity.
Qed.

(** With no newest date, or an aware one, [check_feed] returns. *)
Lemma check_feed_returns (feed_path : Path) (verbose : bool) (w : world)
    (root : Element) :
  parsed feed_path = Ok root ->
  (forall nd, newest_date (scan parsedate_to_datetime
                                (findall_descendants (u "item") root))
              = Some nd -> tzinfo nd <> None) ->
  exists r,
    fst (check_feed parsedate_to_datetime strftime clock feed_path verbose w)
    = Ok r.
Proof.
  intros Hp Haware.
  destruct (findall_descendants (u "item") root) as [|i0 rest] eqn:Hi.
  - rewrite (check_feed_without_items _ _ _ _ verbose w Hp Hi).
    eexists; reflexivity.
  - assert (Hne : findall_descendants (u "item") root <> [])
      by (rewrite Hi; discriminate).
    rewrite (check_feed_items _ _ _ _ verbose w Hp Hne). rewrite Hi in *.
    unfold freshness.
    destruct (newest_date (scan parsedate_to_datetime (i0 :: rest)))
      as [nd|]; [|eexists; reflexivity].
    destruct (tzinfo nd) as [off|] eqn:Hz.
    + rewrite (sub_now_aware _ _ Hz). eexists; reflexivity.
    + exfalso. exact (Haware nd eq_refl Hz).
Qed.

Lemma decimal_not_stale (d : Decimal.uint) (rest : string) :
  is_stale_warning (NilZero.string_of_uint d ++ rest) = false.
Proof. destruct d; reflexivity. Qed.

Lemma missing_msg_not_stale (k total : nat) (what : string) :
  is_stale_warning (missing_msg k total what) = false.
Proof. unfold missing_msg, str_of_nat. apply decimal_not_stale. Qed.

Lemma stale_msg_is_stale (age : timedelta) (nd : datetime) :
  is_stale_warning (stale_msg strftime age nd) = true.
Proof. reflexivity. Qed.

Lemma filter_when {A} (p : A -> bool) (b : bool) (x : A) :
  filter p (when b x) = when (b && p x) x.
Proof. destruct b; simpl; [destruct (p x)|]; reflexivity. Qed.

End Freshness.

(** C4, at the failing input. The entry's date has the zone [-0000], for
    which [parsedate_to_datetime] returns a naive object. The subtraction
    from the aware reading of the clock raises [TypeError]: [check_feed]
    returns nothing, and the run ends before [feed_new.xml] is checked. *)
Theorem naive_newest_date_raises :
  Sample.parsedate (u "Mon, 05 Feb 2024 00:00:00 -0000")
  = Some (Sample.naive 2024 2 5)
  /\ Sample.check Sample.feed_naive false Sample.w0
     = (Raise TypeError, World 1 [])
  /\ Sample.run (Some [Sample.feed_10_days; Sample.feed_naive])
                false Sample.w0
     = (Raise TypeError,
        World 1 [("Checking 2 feeds in /srv/feeds" ++ nl)%string]).
Proof. repeat split. Qed.

(** C5, at the failing input. The first entry is dated 1 January with zone
    [+0000], the second 5 February with zone [-0000]. Both dates parse, the
    comparison of line 66 raises [TypeError] on the second, the handler
    swallows it, and the newest date stays 1 January: the feed is reported
    stale, 45 days old, ten days after its latest entry. *)
Theorem later_naive_date_is_dropped :
  Sample.parsedate (u "Mon, 01 Jan 2024 00:00:00 +0000")
  = Some (Sample.aware 2024 1 1)
  /\ Sample.parsedate (u "Mon, 05 Feb 2024 00:00:00 -0000")
     = Some (Sample.naive 2024 2 5)
  /\ (wall_us (Sample.aware 2024 1 1) < wall_us (Sample.naive 2024 2 5))%Z
  /\ newest_date
       (scan Sample.parsedate
             [Sample.entry "Mon, 01 Jan 2024 00:00:00 +0000";
              Sample.entry "Mon, 05 Feb 2024 00:00:00 -0000"])
     = Some (Sample.aware 2024 1 1)
  /\ Sample.check Sample.feed_mixed false Sample.w0
     = (Ok (true, ["Stale: newest entry is 45 days old (2024-01-01)"], []),
        World 1 []).
Proof. repeat split. Qed.

(** X18. For a document with items on which [check_feed] returns, the
    warnings hold a line of the shape "Stale: ..." exactly when the loop
    ended with a newest date ([newest_date]) and the age of that date at the
    reading of the clock is strictly more than 30 days; the line is then the only one of that shape and reads
    "Stale: newest entry is <whole days of the age> days old (<newest date
    as %Y-%m-%d>)". In particular an age of 45 whole days gives that one
    line with "45 days old" ([ok] being true when there is no error), and an
    age of 10 whole days gives none. *)
Theorem stale_warning_iff_older_than_threshold
    (parsedate_to_datetime : str -> option datetime)
    (strftime : datetime -> string -> string) (clock : nat -> datetime)
    (feed_path : Path) (verbose : bool) (w w' : world) (root : Element)
    (ok : bool) (ws es : list string) :
  parsed feed_path = Ok root ->
  findall_descendants (u "item") root <> [] ->
  check_feed parsedate_to_datetime strftime clock feed_path verbose w
  = (Ok (ok, ws, es), w') ->
  match newest_date (scan parsedate_to_datetime
                          (findall_descendants (u "item") root)) with
  | None => filter is_stale_warning ws = []
  | Some nd =>
      exists age,
        sub (in_utc (clock (now_calls w))) nd = Ok age
        /\ filter is_stale_warning ws
           = (if (30 * us_per_day <? age)%Z
              then [("Stale: newest entry is " ++ str_of_Z (age / us_per_day)
                     ++ " days old (" ++ strftime nd "%Y-%m-%d" ++ ")")%string]
              else [])
        /\ ((age / us_per_day = 45)%Z ->
            filter is_stale_warning ws
            = [("Stale: newest entry is 45 days old ("
                ++ strftime nd "%Y-%m-%d" ++ ")")%string]
            /\ (es = [] -> ok = true))
        /\ ((age / us_per_day = 10)%Z -> filter is_stale_warning ws = [])
  end.
Proof.
  intros Hp Hne Hc.
  destruct (check_feed_items_inv _ _ _ _ _ _ Hp Hne Hc)
    as (stale & Hf & Hok & Hws & Hes).
  apply freshness_inv in Hf.
  assert (Hfilter : filter is_stale_warning ws
                    = filter is_stale_warning stale).
  { rewrite Hws, !filter_app, !filter_when, !missing_msg_not_stale,
      !andb_false_r. reflexivity. }
  destruct (newest_date (scan parsedate_to_datetime
                              (findall_descendants (u "item") root)))
    as [nd|].
  - destruct Hf as (age & Hsub & Hstale). exists age.
    assert (Hshape : filter is_stale_warning ws
                     = (if (30 * us_per_day <? age)%Z
                        then [stale_msg strftime age nd] else [])).
    { rewrite Hfilter, Hstale, filter_when. unfold timedelta_of_days,
        STALE_DAYS. destruct (30 * us_per_day <? age)%Z; reflexivity. }
    split; [exact Hsub|]. split; [exact Hshape|]. split.
    + intros H45. split.
      * rewrite Hshape. unfold stale_msg, days. rewrite H45.
        replace (30 * us_per_day <? age)%Z with true; [reflexivity|].
        symmetry. apply Z.ltb_lt.
        pose proof (Z.mul_div_le age us_per_day eq_refl).
        unfold us_per_day, us_per_second in *. lia.
      * intros He. rewrite Hok. rewrite Hes in He.
        destruct (count_missing "link"
                    (findall_descendants (u "item") root));
          [reflexivity | discriminate].
    + intros H10. rewrite Hshape.
      replace (30 * us_per_day <? age)%Z with false; [reflexivity|].
      symmetry. apply Z.ltb_ge.
      pose proof (Z.mod_pos_bound age us_per_day eq_refl).
      pose proof (Z.div_mod age us_per_day).
      unfold us_per_day, us_per_second in *. lia.
  - rewrite Hfilter, Hf. reflexivity.
Qed.

Lemma stale_warning_iff_older_than_threshold_witness :
  parsed Sample.feed_45_days
  = Ok (Sample.rss [Sample.entry "Mon, 01 Jan 2024 00:00:00 +0000"])
  /\ findall_descendants
       (u "item") (Sample.rss [Sample.entry "Mon, 01 Jan 2024 00:00:00 +0000"])
     <> []
  /\ check_feed Sample.parsedate Sample.strftime Sample.clock
                Sample.feed_45_days false Sample.w0
     = (Ok (true, ["Stale: newest entry is 45 days old (2024-01-01)"], []),
        World 1 [])
  /\ match newest_date
             (scan Sample.parsedate
                (findall_descendants
                   (u "item")
                   (Sample.rss
                      [Sample.entry "Mon, 01 Jan 2024 00:00:00 +0000"]))) with
     | None =>
         filter is_stale_warning
                ["Stale: newest entry is 45 days old (2024-01-01)"] = []
     | Some nd =>
         exists age,
           sub (in_utc (Sample.clock (now_calls Sample.w0))) nd = Ok age
           /\ filter is_stale_warning
                     ["Stale: newest entry is 45 days old (2024-01-01)"]
              = (if (30 * us_per_day <? age)%Z
                 then [("Stale: newest entry is "
                        ++ str_of_Z (age / us_per_day)
                        ++ " days old (" ++ Sample.strftime nd "%Y-%m-%d"
                        ++ ")")%string]
                 else [])
           /\ ((age / us_per_day = 45)%Z ->
               filter is_stale_warning
                      ["Stale: newest entry is 45 days old (2024-01-01)"]
               = [("Stale: newest entry is 45 days old ("
                   ++ Sample.strftime nd "%Y-%m-%d" ++ ")")%string]
               /\ (@nil string = [] -> true = true))
           /\ ((age / us_per_day = 10)%Z ->
               filter is_stale_warning
                      ["Stale: newest entry is 45 days old (2024-01-01)"]
               = [])
     end.
Proof.
  assert (Hne : findall_descendants
                  (u "item")
                  (Sample.rss [Sample.entry "Mon, 01 Jan 2024 00:00:00 +0000"])
                <> []) by (vm_compute; discriminate).
  split; [reflexivity|]. split; [exact Hne|]. split; [reflexivity|].
  apply (@stale_warning_iff_older_than_threshold Sample.parsedate
           Sample.strftime Sample.clock Sample.feed_45_days false Sample.w0
           (World 1 []) _ true _ [] eq_refl Hne).
  reflexivity.
Defined.

(** A feed whose newest entry is ten days old gets no warning. *)
Example ten_days_old_is_fresh :
  Sample.check Sample.feed_10_days false Sample.w0
  = (Ok (true, [], []), World 1 []).
Proof. reflexivity. Qed.

(* ================================================================== *)
(** ** Missing fields *)

(** X19. A field of an item is missing exactly when no child has its tag
    or the (first) child with that tag has no text or only white space. On
    a document with items for which [check_feed] returns: the errors are the
    single line "<k>/<n> entries missing link" when [k > 0] links are
    missing, and nothing otherwise, and [ok] is false exactly in the first
    case; missing titles and missing dates give one warning each, of the
    same shape, and never an error. *)
Theorem missing_fields_findings
    (parsedate_to_datetime : str -> option datetime)
    (strftime : datetime -> string -> string) (clock : nat -> datetime)
    (feed_path : Path) (verbose : bool) (w w' : world) (root : Element)
    (ok : bool) (ws es : list string) :
  parsed feed_path = Ok root ->
  let items := findall_descendants (u "item") root in
  let n := List.length items in
  let mt := count_missing "title" items in
  let ml := count_missing "link" items in
  let md := count_missing "pubDate" items in
  items <> [] ->
  check_feed parsedate_to_datetime strftime clock feed_path verbose w
  = (Ok (ok, ws, es), w') ->
  (forall field item,
      absent_or_blank (find (u field) item) = true <->
      (forall c, In c (children item) -> tag c <> u field)
      \/ (exists c, find (u field) item = Some c
                    /\ forall s, text c = Some s -> blank s))
  /\ es = when (0 <? ml)%nat
               (str_of_nat ml ++ "/" ++ str_of_nat n
                ++ " entries missing link")%string
  /\ (ok = false <-> 0 < ml)
  /\ exists stale,
       ws = when (0 <? mt)%nat
                 (str_of_nat mt ++ "/" ++ str_of_nat n
                  ++ " entries missing title")%string
            ++ when (0 <? md)%nat
                    (str_of_nat md ++ "/" ++ str_of_nat n
                     ++ " entries missing pubDate")%string
            ++ stale
       /\ Forall (fun s => is_stale_warning s = true) stale.
Proof.
  intros Hp items n mt ml md Hne Hc.
  destruct (check_feed_items_inv _ _ _ _ _ _ Hp Hne Hc)
    as (stale & Hf & Hok & Hws & Hes).
  fold items n mt ml md in Hf, Hok, Hws, Hes.
  split; [intros field item; apply absent_or_blank_iff|].
  split; [exact Hes|]. split.
  - rewrite Hok, Nat.eqb_neq. lia.
  - exists stale. split; [exact Hws|].
    apply freshness_inv in Hf.
    destruct (newest_date (scan parsedate_to_datetime items)) as [nd|].
    + destruct Hf as (age & _ & ->).
      destruct (timedelta_of_days STALE_DAYS <? age)%Z; simpl; constructor;
        [reflexivity | constructor].
    + subst stale. constructor.
Qed.

Lemma missing_fields_findings_witness :
  parsed Sample.feed_no_links
  = Ok (Sample.rss [Sample.item [Sample.field "title" "  ";
                                 Sample.field "pubDate" "yesterday"];
                    Sample.item [Sample.field "title" "B"]])
  /\ check_feed Sample.parsedate Sample.strftime Sample.clock
                Sample.feed_no_links false Sample.w0
     = (Ok (false,
            ["1/2 entries missing title"; "1/2 entries missing pubDate"],
            ["2/2 entries missing link"]), Sample.w0)
  /\ ["2/2 entries missing link"]
     = when (0 <? 2)%nat
            (str_of_nat 2 ++ "/" ++ str_of_nat 2
             ++ " entries missing link")%string
  /\ (false = false <-> 0 < 2).
Proof.
  split; [reflexivity|]. split; [reflexivity|].
  assert (Hne : findall_descendants
                  (u "item")
                  (Sample.rss [Sample.item [Sample.field "title" "  ";
                                            Sample.field "pubDate" "yesterday"];
                               Sample.item [Sample.field "title" "B"]])
                <> []) by (vm_compute; discriminate).
  destruct (@missing_fields_findings Sample.parsedate Sample.strftime
              Sample.clock Sample.feed_no_links false Sample.w0 Sample.w0 _
              false
              ["1/2 entries missing title"; "1/2 entries missing pubDate"]
              ["2/2 entries missing link"] eq_refl Hne eq_refl)
    as (_ & Hes & Hok & _).
  split; [exact Hes | exact Hok].
Defined.

(** C10. On a document with items for which [check_feed] returns, the
    warnings are, in this order and each at most once, the missing-title
    line, the missing-pubDate line and the freshness line, so at most three
    lines; the errors are at most the one missing-link line. *)
Theorem findings_order_and_bounds
    (parsedate_to_datetime : str -> option datetime)
    (strftime : datetime -> string -> string) (clock : nat -> datetime)
    (feed_path : Path) (verbose : bool) (w w' : world) (root : Element)
    (ok : bool) (ws es : list string) :
  parsed feed_path = Ok root ->
  let items := findall_descendants (u "item") root in
  let n := List.length items in
  let mt := count_missing "title" items in
  let ml := count_missing "link" items in
  let md := count_missing "pubDate" items in
  items <> [] ->
  check_feed parsedate_to_datetime strftime clock feed_path verbose w
  = (Ok (ok, ws, es), w') ->
  (exists (b_title b_date b_stale : bool) (age : timedelta) (nd : datetime),
      ws = when b_title (missing_msg mt n "title")
           ++ when b_date (missing_msg md n "pubDate")
           ++ when b_stale (stale_msg strftime age nd))
  /\ (exists b_link : bool, es = when b_link (missing_msg ml n "link"))
  /\ List.length ws <= 3
  /\ List.length es <= 1.
Proof.
  intros Hp items n mt ml md Hne Hc.
  destruct (check_feed_items_inv _ _ _ _ _ _ Hp Hne Hc)
    as (stale & Hf & Hok & Hws & Hes).
  fold items n mt ml md in Hf, Hok, Hws, Hes.
  apply freshness_inv in Hf.
  assert (Hst : exists b age nd, stale = when b (stale_msg strftime age nd)).
  { destruct (newest_date (scan parsedate_to_datetime items)) as [nd|].
    - destruct Hf as (age & _ & ->). eauto.
    - subst stale. exists false, 0%Z, (mkdatetime 0 0 0 0 0 0 0 None).
      reflexivity. }
  destruct Hst as (b & age & nd & ->).
  split; [exists (0 <? mt)%nat, (0 <? md)%nat, b, age, nd; exact Hws|].
  split; [exists (0 <? ml)%nat; exact Hes|].
  subst ws es.
  destruct (0 <? mt)%nat, (0 <? md)%nat, b, (0 <? ml)%nat; simpl; lia.
Qed.

Lemma findings_order_and_bounds_witness :
  parsed Sample.feed_no_links
  = Ok (Sample.rss [Sample.item [Sample.field "title" "  ";
                                 Sample.field "pubDate" "yesterday"];
                    Sample.item [Sample.field "title" "B"]])
  /\ check_feed Sample.parsedate Sample.strftime Sample.clock
                Sample.feed_no_links true Sample.w0
     = (Ok (false,
            ["1/2 entries missing title"; "1/2 entries missing pubDate"],
            ["2/2 entries missing link"]), World 0 ["  Entries: 2"])
  /\ List.length
       ["1/2 entries missing title"; "1/2 entries missing pubDate"] <= 3
  /\ List.length ["2/2 entries missing link"] <= 1.
Proof.
  split; [reflexivity|]. split; [reflexivity|].
  assert (Hne : findall_descendants
                  (u "item")
                  (Sample.rss [Sample.item [Sample.field "title" "  ";
                                            Sample.field "pubDate" "yesterday"];
                               Sample.item [Sample.field "title" "B"]])
                <> []) by (vm_compute; discriminate).
  destruct (@findings_order_and_bounds Sample.parsedate Sample.strftime
              Sample.clock Sample.feed_no_links true Sample.w0
              (World 0 ["  Entries: 2"]) _ false
              ["1/2 entries missing title"; "1/2 entries missing pubDate"]
              ["2/2 entries missing link"] eq_refl Hne eq_refl)
    as (_ & _ & Hw & He).
  split; [exact Hw | exact He].
Defined.

(* ================================================================== *)
(** ** The driver *)

Section DriverProperties.

Variable parsedate_to_datetime : str -> option datetime.
Variable strftime : datetime -> string -> string.
Variable clock : nat -> datetime.

Lemma for_each_print (prefix : string) (l : list string) (w : world) :
  for_each l (fun x => print (prefix ++ x)%string) w
  = (Ok tt, World (now_calls w)
                  (stdout w ++ map (fun x => (prefix ++ x)%string) l)).
Proof.
  revert w. induction l as [|x l IH]; intros w; simpl.
  - unfold ret. rewrite app_nil_r. destruct w; reflexivity.
  - unfold bind, print at 1. rewrite IH. simpl.
    rewrite <- app_assoc. reflexivity.
Qed.

(** One round of the loop: the file goes to one bucket, chosen by the
    result of its check, and the run stops when the check raises. *)
Lemma report_feed_inv (verbose : bool) (c c' : counts) (feed_path : Path)
    (w w' : world) :
  report_feed parsedate_to_datetime strftime clock verbose c feed_path w
  = (Ok c', w') ->
  exists ok ws es w1,
    check_feed parsedate_to_datetime strftime clock feed_path verbose w
    = (Ok (ok, ws, es), w1)
    /\ now_calls w' = now_calls w1
    /\ c' = if ok && negb (truthy ws)
            then mkCounts (S (healthy c)) (warn_count c) (error_count c)
            else if ok && truthy ws
            then mkCounts (healthy c) (S (warn_count c)) (error_count c)
            else mkCounts (healthy c) (warn_count c) (S (error_count c)).
Proof.
  unfold report_feed. unfold bind at 1.
  destruct (check_feed parsedate_to_datetime strftime clock feed_path
              verbose w) as [[[[ok ws] es]|e] w1]; [|discriminate].
  intros H. exists ok, ws, es, w1. split; [reflexivity|].
  destruct (ok && negb (truthy ws)); [|destruct (ok && truthy ws)];
    unfold bind, print at 1 in H; rewrite !for_each_print in H;
    unfold ret in H; simpl in H; inversion H; auto.
Qed.

Lemma report_feed_raises (verbose : bool) (c : counts) (feed_path : Path)
    (w w1 : world) (e : exn) :
  check_feed parsedate_to_datetime strftime clock feed_path verbose w
  = (Raise e, w1) ->
  report_feed parsedate_to_datetime strftime clock verbose c feed_path w
  = (Raise e, w1).
Proof. intros H. unfold report_feed. unfold bind at 1. rewrite H. reflexivity. Qed.

(** After a loop that completes, every file was checked, each check
    returned, and each counter counts the results of its bucket. *)
Lemma for_feeds_counts (verbose : bool) (feeds : list Path) (c c' : counts)
    (w w' : world) :
  for_feeds parsedate_to_datetime strftime clock verbose feeds c w
  = (Ok c', w') ->
  let rs := run_results parsedate_to_datetime strftime clock verbose
                        feeds c w in
  List.length rs = List.length feeds
  /\ Forall (fun r => exists x, r = Ok x) rs
  /\ healthy c' = healthy c + count is_healthy rs
  /\ warn_count c' = warn_count c + count is_warn rs
  /\ error_count c' = error_count c + count failed rs.
Proof.
  revert c w. induction feeds as [|f rest IH]; intros c w; simpl.
  - unfold ret. intros H; inversion H; subst. unfold count; simpl.
    repeat split; try lia. constructor.
  - unfold bind at 1.
    destruct (report_feed parsedate_to_datetime strftime clock verbose c f w)
      as [[c1|e] w1] eqn:Hr; [|discriminate].
    intros H. destruct (report_feed_inv _ _ _ _ Hr)
      as (ok & ws & es & w0 & Hc & _ & Hc1).
    destruct (IH _ _ H) as (Hlen & Hall & Hh & Hw & He).
    rewrite Hc. simpl fst. unfold count in *. simpl.
    split; [rewrite Hlen; reflexivity|].
    split; [constructor; [eexists; reflexivity | exact Hall]|].
    rewrite Hh, Hw, He, Hc1.
    destruct ok, ws as [|x ws]; simpl; repeat split; lia.
Qed.

Lemma insert_path_length (p : Path) (l : list Path) :
  List.length (insert_path p l) = S (List.length l).
Proof.
  induction l as [|q l IH]; simpl; [reflexivity|].
  destruct (String.leb (name p) (name q)); simpl; [|rewrite IH]; reflexivity.
Qed.

(** Sorting keeps every matched file. *)
Lemma sorted_length (l : list Path) : List.length (sorted l) = List.length l.
Proof.
  induction l as [|p l IH]; simpl; [reflexivity|].
  rewrite insert_path_length, IH. reflexivity.
Qed.

Lemma in_insert_path (p q : Path) (l : list Path) :
  In q (insert_path p l) <-> q = p \/ In q l.
Proof.
  induction l as [|r l IH]; simpl.
  - split; intros [H|H]; auto.
  - destruct (String.leb (name p) (name r)); simpl; [|rewrite IH];
      split; intros H; intuition auto.
Qed.

Lemma in_sorted (q : Path) (l : list Path) : In q (sorted l) <-> In q l.
Proof.
  induction l as [|p l IH]; simpl; [tauto|].
  rewrite in_insert_path, IH. split; intros [H|H]; auto.
Qed.

End DriverProperties.

Lemma count_zero_iff {A} (p : A -> bool) (l : list A) :
  count p l = 0 <-> Forall (fun x => p x = false) l.
Proof.
  unfold count. induction l as [|x l IH]; simpl.
  - split; [constructor | reflexivity].
  - destruct (p x) eqn:E; simpl; split; intros H.
    + discriminate.
    + inversion H; congruence.
    + constructor; [exact E | apply IH; exact H].
    + inversion H; apply IH; assumption.
Qed.

(** A returned result lies in exactly one bucket. *)
Lemma one_bucket (r : result (bool * list string * list string)) :
  (exists x, r = Ok x) ->
  Nat.b2n (is_healthy r) + Nat.b2n (is_warn r) + Nat.b2n (failed r) = 1.
Proof.
  intros [[[ok ws] es] ->]. destruct ok, ws; reflexivity.
Qed.

Lemma buckets_sum (rs : list (result (bool * list string * list string))) :
  Forall (fun r => exists x, r = Ok x) rs ->
  count is_healthy rs + count is_warn rs + count failed rs = List.length rs.
Proof.
  unfold count. induction 1 as [|r rs Hr _ IH]; simpl; [reflexivity|].
  pose proof (one_bucket Hr) as H1.
  destruct (is_healthy r), (is_warn r), (failed r); simpl in *; lia.
Qed.

Lemma summary_exits (total : nat) (c : counts) (w : world) :
  fst (summary total c w)
  = Raise (SystemExit (if (0 <? error_count c)%nat then 1 else 0)%Z)
  /\ now_calls (snd (summary total c w)) = now_calls w.
Proof.
  unfold summary, bind, print, ret, sys_exit, raise.
  destruct (0 <? warn_count c)%nat, (0 <? error_count c)%nat; simpl; auto.
Qed.

(** C8, as the script has it. In a run of the loop over the matched files
    that completes, that is in which every check returns, every
    file was checked and its result lies in exactly one of the buckets OK
    ([ok] without warnings), WARN ([ok] with warnings) and FAIL ([not ok]);
    each counter counts the results of its bucket, and the three counters
    add up to the number of files. *)
Theorem buckets_partition_the_feeds
    (parsedate_to_datetime : str -> option datetime)
    (strftime : datetime -> string -> string) (clock : nat -> datetime)
    (verbose : bool) (feeds : list Path) (c : counts) (w w' : world) :
  for_feeds parsedate_to_datetime strftime clock verbose feeds
            (mkCounts 0 0 0) w = (Ok c, w') ->
  let rs := run_results parsedate_to_datetime strftime clock verbose feeds
                        (mkCounts 0 0 0) w in
  List.length rs = List.length feeds
  /\ Forall (fun r =>
               (exists x, r = Ok x)
               /\ Nat.b2n (is_healthy r) + Nat.b2n (is_warn r)
                  + Nat.b2n (failed r) = 1) rs
  /\ healthy c = count is_healthy rs
  /\ warn_count c = count is_warn rs
  /\ error_count c = count failed rs
  /\ healthy c + warn_count c + error_count c = List.length feeds.
Proof.
  intros H rs.
  destruct (for_feeds_counts _ _ _ _ _ _ _ H) as (Hlen & Hall & Hh & Hw & He).
  fold rs in Hlen, Hall, Hh, Hw, He. simpl in Hh, Hw, He.
  split; [exact Hlen|]. split.
  - apply Forall_forall. intros r Hr.
    rewrite Forall_forall in Hall. split; [auto | apply one_bucket; auto].
  - repeat split; try assumption.
    rewrite Hh, Hw, He, <- Hlen. apply buckets_sum. exact Hall.
Qed.

Lemma buckets_partition_the_feeds_witness :
  for_feeds Sample.parsedate Sample.strftime Sample.clock false
            [Sample.feed_malformed; Sample.feed_10_days; Sample.feed_45_days]
            (mkCounts 0 0 0) Sample.w0
  = (Ok (mkCounts 1 1 1),
     World 2 ["  [FAIL] feed_bad.xml";
              "         ! Invalid XML: no element found: line 1, column 0";
              "  [OK  ] feed_new.xml";
              "  [WARN] feed_old.xml";
              "         ^ Stale: newest entry is 45 days old (2024-01-01)"])
  /\ healthy (mkCounts 1 1 1) + warn_count (mkCounts 1 1 1)
     + error_count (mkCounts 1 1 1)
     = List.length
         [Sample.feed_malformed; Sample.feed_10_days; Sample.feed_45_days].
Proof.
  split; [reflexivity|].
  apply (@buckets_partition_the_feeds Sample.parsedate Sample.strftime
           Sample.clock false
           [Sample.feed_malformed; Sample.feed_10_days; Sample.feed_45_days]
           (mkCounts 1 1 1) Sample.w0
           (World 2 ["  [FAIL] feed_bad.xml";
              "         ! Invalid XML: no element found: line 1, column 0";
              "  [OK  ] feed_new.xml";
              "  [WARN] feed_old.xml";
              "         ^ Stale: newest entry is 45 days old (2024-01-01)"])).
  reflexivity.
Defined.

(** C9, as the script has it. When the feeds directory is missing, and
    when it has no file matching [feed_*.xml], [main] prints its message and
    exits with status 1 without checking a feed. Otherwise, in a run whose
    loop completes, that is in which every check returns,
    [main] exits with status 0 exactly when the error counter is zero, that
    is exactly when no check returned [ok = False], whatever the warnings. *)
Theorem exit_status
    (parsedate_to_datetime : str -> option datetime)
    (strftime : datetime -> string -> string) (clock : nat -> datetime)
    (FEEDS_DIR : string) (verbose : bool) (w : world) :
  main parsedate_to_datetime strftime clock FEEDS_DIR None verbose w
  = (Raise (SystemExit 1),
     World (now_calls w)
           (stdout w ++ [("Feeds directory not found: " ++ FEEDS_DIR)%string]))
  /\ (forall entries,
         glob_feed_xml entries = [] ->
         main parsedate_to_datetime strftime clock FEEDS_DIR (Some entries)
              verbose w
         = (Raise (SystemExit 1),
            World (now_calls w) (stdout w ++ ["No feed files found."])))
  /\ (forall entries c w1,
         let feeds := sorted (glob_feed_xml entries) in
         let w0 := World (now_calls w)
                         (stdout w ++ [header FEEDS_DIR (List.length feeds)]) in
         feeds <> [] ->
         for_feeds parsedate_to_datetime strftime clock verbose feeds
                   (mkCounts 0 0 0) w0 = (Ok c, w1) ->
         exists code,
           fst (main parsedate_to_datetime strftime clock FEEDS_DIR
                     (Some entries) verbose w) = Raise (SystemExit code)
           /\ (code = 0%Z <-> error_count c = 0)
           /\ (error_count c = 0 <->
               Forall (fun r => failed r = false)
                      (run_results parsedate_to_datetime strftime clock
                                   verbose feeds (mkCounts 0 0 0) w0))).
Proof.
  split; [reflexivity|]. split.
  - intros entries Hg. unfold main. rewrite Hg. reflexivity.
  - intros entries c w1 feeds w0 Hne Hrun.
    exists (if (0 <? error_count c)%nat then 1 else 0)%Z.
    split; [|split].
    + unfold main. fold feeds.
      replace (negb (truthy feeds)) with false
        by (destruct feeds; [congruence | reflexivity]).
      unfold bind at 1. unfold print at 1. fold (header FEEDS_DIR (List.length feeds)).
      fold w0. unfold bind at 1. rewrite Hrun.
      apply summary_exits.
    + destruct (error_count c); simpl; split; intros H; try reflexivity;
        discriminate.
    + destruct (for_feeds_counts _ _ _ _ _ _ _ Hrun) as (_ & _ & _ & _ & He).
      simpl in He. rewrite He. apply count_zero_iff.
Qed.

Lemma exit_status_witness :
  glob_feed_xml [mkPath "README.md" (Raise (OtherException "unread"))] = []
  /\ main Sample.parsedate Sample.strftime Sample.clock "/srv/feeds"
          (Some [mkPath "README.md" (Raise (OtherException "unread"))])
          true Sample.w0
     = (Raise (SystemExit 1),
        World (now_calls Sample.w0)
              (stdout Sample.w0 ++ ["No feed files found."]))
  /\ for_feeds Sample.parsedate Sample.strftime Sample.clock false
               (sorted (glob_feed_xml [Sample.feed_45_days;
                                       Sample.feed_10_days]))
               (mkCounts 0 0 0)
               (World 0 [header "/srv/feeds" 2])
     = (Ok (mkCounts 1 1 0),
        World 2 [header "/srv/feeds" 2;
                 "  [OK  ] feed_new.xml";
                 "  [WARN] feed_old.xml";
                 "         ^ Stale: newest entry is 45 days old (2024-01-01)"])
  /\ fst (main Sample.parsedate Sample.strftime Sample.clock "/srv/feeds"
               (Some [Sample.feed_45_days; Sample.feed_10_days])
               false Sample.w0)
     = Raise (SystemExit 0).
Proof.
  destruct (@exit_status Sample.parsedate Sample.strftime Sample.clock
              "/srv/feeds" true Sample.w0) as (_ & Hnone & _).
  destruct (@exit_status Sample.parsedate Sample.strftime Sample.clock
              "/srv/feeds" false Sample.w0) as (_ & _ & Hrun).
  split; [reflexivity|]. split; [apply Hnone; reflexivity|].
  split; [reflexivity|].
  destruct (Hrun [Sample.feed_45_days; Sample.feed_10_days]
                 (mkCounts 1 1 0)
                 (World 2 [header "/srv/feeds" 2;
                           "  [OK  ] feed_new.xml";
                           "  [WARN] feed_old.xml";
                           "         ^ Stale: newest entry is 45 days old (2024-01-01)"]))
    as (code & Hmain & Hcode & _).
  - vm_compute; discriminate.
  - reflexivity.
  - rewrite Hmain. f_equal. f_equal. apply Hcode. reflexivity.
Defined.

(* ================================================================== *)
(** ** The newest date *)

Section NewestDate.

Variable parsedate_to_datetime : str -> option datetime.

(** How one item changes the newest date. *)
Lemma scan_item_newest (t : tally) (item : Element) :
  newest_date (scan_item parsedate_to_datetime t item)
  = match pub_date parsedate_to_datetime item, newest_date t with
    | None, _ => newest_date t
    | Some dt, None => Some dt
    | Some dt, Some nd =>
        match gt dt nd with
        | Ok true => Some dt
        | _ => Some nd
        end
    end.
Proof.
  unfold scan_item, pub_date, try_newest.
  destruct (find (u "pubDate") item) as [e|]; [|reflexivity].
  destruct (absent_or_blank (Some e)) eqn:Hb; [reflexivity|].
  simpl in Hb. apply negb_false_iff in Hb.
  destruct (text e) as [txt|]; [|discriminate].
  simpl in *. destruct (truthy txt); [|discriminate].
  destruct (parsedate_to_datetime (strip txt)) as [dt|]; [|reflexivity].
  destruct (newest_date t) as [nd|]; [|reflexivity].
  destruct (gt dt nd) as [[|]|]; reflexivity.
Qed.

(** X9. An item whose date is present and not blank but does not parse
    changes neither the newest date nor the count of missing dates: it
    leads to no finding at all. *)
Lemma unparseable_date_is_ignored (t : tally) (item e : Element) :
  find (u "pubDate") item = Some e ->
  absent_or_blank (Some e) = false ->
  parsedate_to_datetime (strip (or_empty (text e))) = None ->
  newest_date (scan_item parsedate_to_datetime t item) = newest_date t
  /\ missing_dates (scan_item parsedate_to_datetime t item)
     = missing_dates t.
Proof.
  intros Hf Hb Hp. split.
  - rewrite scan_item_newest. unfold pub_date. rewrite Hf, Hb, Hp.
    reflexivity.
  - rewrite scan_item_dates, Hf, Hb. reflexivity.
Qed.

Lemma gt_same_kind (a b : datetime) :
  is_aware a = is_aware b -> gt a b = Ok (instant b <? instant a)%Z.
Proof.
  unfold is_aware, gt, instant.
  destruct (tzinfo a), (tzinfo b); try discriminate; intros _;
    [reflexivity|]. rewrite !Z.mul_0_l, !Z.sub_0_r. reflexivity.
Qed.

Lemma is_aware_later (k : bool) (a b : datetime) :
  is_aware a = k -> is_aware b = k -> is_aware (later a b) = k.
Proof. unfold later. destruct (instant a <? instant b)%Z; auto. Qed.

(** Over dates that are all aware, or all naive, the loop keeps the most
    recent one. *)
Lemma fold_scan_newest (k : bool) (items : list Element) (t0 : tally) :
  Forall (fun d => is_aware d = k)
         (parsed_dates parsedate_to_datetime items) ->
  (forall nd, newest_date t0 = Some nd -> is_aware nd = k) ->
  newest_date (fold_left (scan_item parsedate_to_datetime) items t0)
  = match newest_date t0 with
    | Some nd =>
        Some (fold_left later (parsed_dates parsedate_to_datetime items) nd)
    | None => most_recent (parsed_dates parsedate_to_datetime items)
    end.
Proof.
  revert t0. induction items as [|item items IH]; intros t0 Hall H0; simpl.
  - destruct (newest_date t0); reflexivity.
  - simpl in Hall. apply Forall_app in Hall. destruct Hall as [Hd Hrest].
    pose proof (scan_item_newest t0 item) as Hn.
    destruct (pub_date parsedate_to_datetime item) as [dt|]; simpl.
    + pose proof (Forall_inv Hd) as Hdt. simpl in Hdt.
      destruct (newest_date t0) as [nd|] eqn:E0.
      * rewrite (gt_same_kind dt nd) in Hn
          by (rewrite Hdt; symmetry; apply H0; reflexivity).
        assert (Hn' : newest_date (scan_item parsedate_to_datetime t0 item)
                      = Some (later nd dt))
          by (rewrite Hn; unfold later;
              destruct (instant nd <? instant dt)%Z; reflexivity).
        rewrite IH; [|exact Hrest|].
        -- rewrite Hn'. reflexivity.
        -- intros x Hx. rewrite Hn' in Hx. inversion Hx.
           apply is_aware_later; [apply H0; reflexivity | exact Hdt].
      * rewrite IH; [|exact Hrest|].
        -- rewrite Hn. reflexivity.
        -- intros x Hx. rewrite Hn in Hx. inversion Hx as [Hx'].
           rewrite <- Hx'. exact Hdt.
    + rewrite IH; [|exact Hrest|].
      * rewrite Hn. reflexivity.
      * intros x Hx. rewrite Hn in Hx. apply H0. exact Hx.
Qed.

Lemma scan_newest_same_kind (k : bool) (items : list Element) :
  Forall (fun d => is_aware d = k)
         (parsed_dates parsedate_to_datetime items) ->
  newest_date (scan parsedate_to_datetime items)
  = most_recent (parsed_dates parsedate_to_datetime items).
Proof.
  intros Hall. unfold scan.
  rewrite (@fold_scan_newest k items (mkTally 0 0 0 None) Hall);
    [reflexivity|].
  intros nd H; discriminate.
Qed.

Lemma fold_later_max (ds : list datetime) (d0 : datetime) :
  let m := fold_left later ds d0 in
  (m = d0 \/ In m ds)
  /\ (instant d0 <= instant m)%Z
  /\ Forall (fun d => (instant d <= instant m)%Z) ds.
Proof.
  revert d0. induction ds as [|d ds IH]; intros d0; simpl.
  - split; [left; reflexivity|]. split; [lia | constructor].
  - destruct (IH (later d0 d)) as (Hin & Hle & Hall).
    assert (Hl : (instant d0 <= instant (later d0 d)
                  /\ instant d <= instant (later d0 d))%Z).
    { unfold later. destruct (instant d0 <? instant d)%Z eqn:E;
        [apply Z.ltb_lt in E | apply Z.ltb_ge in E]; lia. }
    split; [|split].
    + destruct Hin as [-> | Hin]; [|right; right; exact Hin].
      unfold later. destruct (instant d0 <? instant d)%Z; auto.
    + lia.
    + constructor; [lia | exact Hall].
Qed.

(** [most_recent] is one of the dates, and none is more recent. *)
Lemma most_recent_max (ds : list datetime) (m : datetime) :
  most_recent ds = Some m ->
  In m ds /\ Forall (fun d => (instant d <= instant m)%Z) ds.
Proof.
  destruct ds as [|d ds]; simpl; [discriminate|].
  intros H. injection H as <-.
  destruct (fold_later_max ds d) as (Hin & Hle & Hall).
  split.
  - destruct Hin as [E | Hin]; [left; symmetry; exact E | right; exact Hin].
  - constructor; [exact Hle | exact Hall].
Qed.

(** X8. When every parsed date carries a zone, the newest date of the
    loop is a parsed date that no parsed date exceeds, and there is none
    exactly when no date parsed. *)
Lemma scan_newest_aware_max (items : list Element) :
  Forall (fun d => is_aware d = true)
         (parsed_dates parsedate_to_datetime items) ->
  match newest_date (scan parsedate_to_datetime items) with
  | Some nd =>
      In nd (parsed_dates parsedate_to_datetime items)
      /\ Forall (fun d => (instant d <= instant nd)%Z)
                (parsed_dates parsedate_to_datetime items)
  | None => parsed_dates parsedate_to_datetime items = []
  end.
Proof.
  intros Hall. rewrite (@scan_newest_same_kind true items Hall).
  destruct (most_recent (parsed_dates parsedate_to_datetime items))
    as [m|] eqn:E.
  - apply most_recent_max. exact E.
  - destruct (parsed_dates parsedate_to_datetime items);
      [reflexivity | discriminate].
Qed.

End NewestDate.

(* ================================================================== *)
(** * Further properties of the checker *)

Section CheckerWorld.

Variable parsedate_to_datetime : str -> option datetime.
Variable strftime : datetime -> string -> string.
Variable clock : nat -> datetime.

(** The world after [check_feed] on a document with items: the clock is
    read once when a newest date was found, and the detail lines are
    printed when the function returns. *)
Lemma check_feed_items_world (feed_path : Path) (verbose : bool) (w : world)
    (root : Element) :
  parsed feed_path = Ok root ->
  let items := findall_descendants (u "item") root in
  let newest := newest_date (scan parsedate_to_datetime items) in
  items <> [] ->
  snd (check_feed parsedate_to_datetime strftime clock feed_path verbose w)
  = World (now_calls w + match newest with Some _ => 1 | None => 0 end)
          (stdout w
           ++ match freshness strftime (clock (now_calls w)) newest with
              | Ok _ => detail_lines strftime verbose (List.length items)
                                     newest
              | Raise _ => []
              end).
Proof.
  intros Hp items newest Hne.
  assert (Htr : negb (truthy items) = false)
    by (destruct items; [congruence | reflexivity]).
  unfold check_feed, ET_parse, lift. rewrite Hp. fold items. rewrite Htr.
  unfold field_findings. cbv zeta.
  unfold check_freshness, freshness, print_details, detail_lines, bind,
    datetime_now_utc, print, lift, ret.
  fold newest. destruct newest as [nd|].
  - destruct (sub (in_utc (clock (now_calls w))) nd) as [age|e].
    + destruct (timedelta_of_days STALE_DAYS <? age)%Z; destruct verbose;
        simpl; rewrite ?app_nil_r, ?Nat.add_1_r, <- ?app_assoc; reflexivity.
    + simpl. rewrite app_nil_r, Nat.add_1_r. reflexivity.
  - destruct verbose; simpl; rewrite ?app_nil_r, ?Nat.add_0_r;
      destruct w; reflexivity.
Qed.

End CheckerWorld.

Lemma child_smaller (c r : Element) : In c (children r) -> size c < size r.
Proof.
  destruct r as [tg tx ch]. simpl. intros Hin.
  induction ch as [|d ch IH]; simpl in *; [contradiction|].
  destruct Hin as [-> | Hin]; [lia|]. specialize (IH Hin). lia.
Qed.

(** What lies below an element is smaller than it. *)
Lemma below_smaller (r e : Element) : below r e -> size e < size r.
Proof.
  induction 1 as [r e Hc | r c e Hc _ IH].
  - apply child_smaller. exact Hc.
  - pose proof (child_smaller c r Hc). lia.
Qed.

(** X1. [findall(".//item")] returns exactly the elements that lie
    strictly below the root, at any depth, and carry the tag [item]; the
    root element itself is never one of them, whatever its tag. *)
Theorem findall_finds_tagged_descendants (root : Element) :
  (forall e, In e (findall_descendants (u "item") root)
             <-> below root e /\ tag e = u "item")
  /\ ~ In root (findall_descendants (u "item") root).
Proof.
  split; [intros e; apply in_findall_iff|].
  intros Hin. apply in_findall_iff in Hin. destruct Hin as [Hb _].
  apply below_smaller in Hb. lia.
Qed.

(** X2. In a result returned for a document with [n] items, [n] is
    positive, the error is absent or reads "k/n entries missing link" with
    [1 <= k <= n], and every warning is the freshness line or reads
    "k/n entries missing <field>" with [1 <= k <= n]. *)
Theorem findings_count_within_total
    (parsedate_to_datetime : str -> option datetime)
    (strftime : datetime -> string -> string) (clock : nat -> datetime)
    (feed_path : Path) (verbose : bool) (w w' : world) (root : Element)
    (ok : bool) (ws es : list string) :
  parsed feed_path = Ok root ->
  let n := List.length (findall_descendants (u "item") root) in
  findall_descendants (u "item") root <> [] ->
  check_feed parsedate_to_datetime strftime clock feed_path verbose w
  = (Ok (ok, ws, es), w') ->
  0 < n
  /\ (es = [] \/ exists k, 1 <= k <= n /\ es = [missing_msg k n "link"])
  /\ Forall (fun s => is_stale_warning s = true
                      \/ exists k what, 1 <= k <= n
                                        /\ s = missing_msg k n what) ws.
Proof.
  intros Hp n Hne Hc.
  destruct (check_feed_items_inv _ _ _ _ _ _ Hp Hne Hc)
    as (stale & Hf & _ & Hws & Hes).
  fold n in Hws, Hes.
  pose proof (count_missing_le "title" (findall_descendants (u "item") root)).
  pose proof (count_missing_le "link" (findall_descendants (u "item") root)).
  pose proof (count_missing_le "pubDate"
                (findall_descendants (u "item") root)).
  fold n in H, H0, H1.
  split; [|split].
  - unfold n. destruct (findall_descendants (u "item") root);
      [congruence | simpl; lia].
  - rewrite Hes.
    destruct (0 <? count_missing "link" _)%nat eqn:E; [|left; reflexivity].
    apply Nat.ltb_lt in E. right. eexists. split; [|reflexivity]. lia.
  - rewrite Hws. apply Forall_app; split; [|apply Forall_app; split].
    + destruct (0 <? count_missing "title" _)%nat eqn:E; [|constructor].
      apply Nat.ltb_lt in E. constructor; [|constructor].
      right. eexists _, _. split; [|reflexivity]. lia.
    + destruct (0 <? count_missing "pubDate" _)%nat eqn:E; [|constructor].
      apply Nat.ltb_lt in E. constructor; [|constructor].
      right. eexists _, _. split; [|reflexivity]. lia.
    + apply freshness_inv in Hf.
      destruct (newest_date _) as [nd|].
      * destruct Hf as (age & _ & ->).
        destruct (timedelta_of_days STALE_DAYS <? age)%Z; simpl;
          constructor; [left; reflexivity | constructor].
      * subst stale. constructor.
Qed.

Lemma findings_count_within_total_witness :
  parsed Sample.feed_no_links
  = Ok (Sample.rss [Sample.item [Sample.field "title" "  ";
                                 Sample.field "pubDate" "yesterday"];
                    Sample.item [Sample.field "title" "B"]])
  /\ check_feed Sample.parsedate Sample.strftime Sample.clock
                Sample.feed_no_links false Sample.w0
     = (Ok (false,
            ["1/2 entries missing title"; "1/2 entries missing pubDate"],
            ["2/2 entries missing link"]), Sample.w0)
  /\ 0 < 2.
Proof.
  split; [reflexivity|]. split; [reflexivity|].
  assert (Hne : findall_descendants
                  (u "item")
                  (Sample.rss [Sample.item [Sample.field "title" "  ";
                                            Sample.field "pubDate" "yesterday"];
                               Sample.item [Sample.field "title" "B"]])
                <> []) by (vm_compute; discriminate).
  destruct (@findings_count_within_total Sample.parsedate Sample.strftime
              Sample.clock Sample.feed_no_links false Sample.w0 Sample.w0 _
              false
              ["1/2 entries missing title"; "1/2 entries missing pubDate"]
              ["2/2 entries missing link"] eq_refl Hne eq_refl)
    as (Hn & _).
  exact Hn.
Defined.

(** X3. The verbose flag changes only what is printed: with and without
    it [check_feed] gives the same result or raises the same exception and
    reads the clock as often, and without it nothing is printed. *)
Theorem verbose_changes_only_the_output
    (parsedate_to_datetime : str -> option datetime)
    (strftime : datetime -> string -> string) (clock : nat -> datetime)
    (feed_path : Path) (w : world) :
  let run v := check_feed parsedate_to_datetime strftime clock feed_path v w in
  fst (run true) = fst (run false)
  /\ now_calls (snd (run true)) = now_calls (snd (run false))
  /\ stdout (snd (run false)) = stdout w.
Proof.
  cbv zeta. destruct (parsed feed_path) as [root|e] eqn:Hp.
  - destruct (findall_descendants (u "item") root) as [|i0 rest] eqn:Hi.
    + rewrite !(check_feed_without_items _ _ _ _ _ _ Hp Hi). auto.
    + assert (Hne : findall_descendants (u "item") root <> [])
        by (rewrite Hi; discriminate).
      rewrite !(check_feed_items _ _ _ _ _ w Hp Hne).
      rewrite !(check_feed_items_world _ _ _ _ _ w Hp Hne).
      split; [reflexivity|]. split; [reflexivity|]. simpl.
      destruct (freshness _ _ _); simpl; apply app_nil_r.
  - destruct e as [msg| | | |];
      try (rewrite !(check_feed_propagates _ _ _ _ _ _ Hp);
           [auto | intros m; discriminate | intros m; discriminate]).
    rewrite !(check_feed_ParseError _ _ _ _ _ _ Hp). auto.
Qed.

(** X4. When [check_feed] returns in verbose mode for a document with
    items, it has printed the line "  Entries: <n>" and then, if a newest
    date was found, the line "  Newest:  <date as %Y-%m-%d %H:%M>", and
    nothing else; it has read the clock once if a newest date was found and
    not at all otherwise. *)
Theorem verbose_prints_entries_and_newest
    (parsedate_to_datetime : str -> option datetime)
    (strftime : datetime -> string -> string) (clock : nat -> datetime)
    (feed_path : Path) (w w' : world) (root : Element)
    (r : bool * list string * list string) :
  parsed feed_path = Ok root ->
  let items := findall_descendants (u "item") root in
  let newest := newest_date (scan parsedate_to_datetime items) in
  items <> [] ->
  check_feed parsedate_to_datetime strftime clock feed_path true w
  = (Ok r, w') ->
  stdout w'
  = stdout w
    ++ ("  Entries: " ++ str_of_nat (List.length items))%string
       :: match newest with
          | Some nd => [("  Newest:  " ++ strftime nd "%Y-%m-%d %H:%M")%string]
          | None => []
          end
  /\ now_calls w'
     = now_calls w + match newest with Some _ => 1 | None => 0 end.
Proof.
  intros Hp items newest Hne Hc.
  pose proof (check_feed_items_world parsedate_to_datetime strftime clock
                feed_path true w Hp Hne) as Hw.
  pose proof (check_feed_items parsedate_to_datetime strftime clock
                feed_path true w Hp Hne) as Hr.
  rewrite Hc in Hw, Hr. simpl in Hw, Hr. fold items newest in Hw, Hr.
  destruct (freshness strftime (clock (now_calls w)) newest);
    [|discriminate].
  rewrite Hw. simpl. auto.
Qed.

Lemma verbose_prints_entries_and_newest_witness :
  check_feed Sample.parsedate Sample.strftime Sample.clock
             Sample.feed_45_days true Sample.w0
  = (Ok (true, ["Stale: newest entry is 45 days old (2024-01-01)"], []),
     World 1 ["  Entries: 1"; "  Newest:  2024-01-01 00:00"])
  /\ now_calls (World 1 ["  Entries: 1"; "  Newest:  2024-01-01 00:00"])
     = now_calls Sample.w0
       + match newest_date
                 (scan Sample.parsedate
                    (findall_descendants
                       (u "item")
                       (Sample.rss
                          [Sample.entry "Mon, 01 Jan 2024 00:00:00 +0000"])))
         with Some _ => 1 | None => 0 end.
Proof.
  split; [reflexivity|].
  assert (Hne : findall_descendants
                  (u "item")
                  (Sample.rss [Sample.entry "Mon, 01 Jan 2024 00:00:00 +0000"])
                <> []) by (vm_compute; discriminate).
  destruct (@verbose_prints_entries_and_newest Sample.parsedate
              Sample.strftime Sample.clock Sample.feed_45_days Sample.w0
              (World 1 ["  Entries: 1"; "  Newest:  2024-01-01 00:00"]) _
              (true, ["Stale: newest entry is 45 days old (2024-01-01)"], [])
              eq_refl Hne eq_refl) as [_ H].
  exact H.
Defined.

Lemma scan_nil_newest (pd : str -> option datetime) :
  newest_date (scan pd []) = None.
Proof. reflexivity. Qed.

(** X5. [check_feed] raises in two cases only: [ET.parse] raised an
    exception other than [ParseError], which is passed on, or the newest
    date found is naive, which gives [TypeError]. In every other case it
    returns a result. *)
Theorem check_feed_raises_iff
    (parsedate_to_datetime : str -> option datetime)
    (strftime : datetime -> string -> string) (clock : nat -> datetime)
    (feed_path : Path) (verbose : bool) (w : world) (e : exn) :
  fst (check_feed parsedate_to_datetime strftime clock feed_path verbose w)
  = Raise e
  <-> (parsed feed_path = Raise e /\ forall msg, e <> ParseError msg)
      \/ (exists root nd,
             parsed feed_path = Ok root
             /\ newest_date (scan parsedate_to_datetime
                                  (findall_descendants (u "item") root))
                = Some nd
             /\ tzinfo nd = None /\ e = TypeError).
Proof.
  destruct (parsed feed_path) as [root|e0] eqn:Hp.
  - destruct (findall_descendants (u "item") root) as [|i0 rest] eqn:Hi.
    + rewrite (check_feed_without_items _ _ _ _ _ _ Hp Hi). simpl.
      split; [discriminate|].
      intros [[H _] | (root' & nd & H & Hn & _)]; [discriminate|].
      inversion H; subst root'. rewrite Hi in Hn. discriminate.
    + assert (Hne : findall_descendants (u "item") root <> [])
        by (rewrite Hi; discriminate).
      rewrite (check_feed_items _ _ _ _ _ w Hp Hne). rewrite Hi in *.
      unfold freshness.
      destruct (newest_date (scan parsedate_to_datetime (i0 :: rest)))
        as [nd|] eqn:Hn.
      * destruct (tzinfo nd) as [off|] eqn:Hz.
        -- rewrite (sub_now_aware _ _ Hz). split; [discriminate|].
           intros [[H _] | (root' & nd' & H & Hn' & Hz' & _)];
             [discriminate|].
           inversion H; subst root'. rewrite Hi, Hn in Hn'.
           inversion Hn'; subst nd'. congruence.
        -- rewrite (sub_now_naive _ _ Hz). split.
           ++ intros H; inversion H; subst e. right. exists root, nd.
              rewrite Hi. auto.
           ++ intros [[H _] | (_ & _ & _ & _ & _ & ->)];
                [discriminate | reflexivity].
      * split; [discriminate|].
        intros [[H _] | (root' & nd & H & Hn' & _)]; [discriminate|].
        inversion H; subst root'. rewrite Hi, Hn in Hn'. discriminate.
  - destruct e0 as [msg| | | |].
    1: { rewrite (check_feed_ParseError _ _ _ _ _ _ Hp). simpl.
         split; [discriminate|].
         intros [[H Hm] | (root & nd & H & _)]; [|discriminate].
         inversion H; subst e. exfalso. exact (Hm msg eq_refl). }
    all: rewrite (check_feed_propagates _ _ _ _ _ _ Hp)
      by (intros m; discriminate);
      simpl; split;
      [ intros H; inversion H; subst e; left; split;
        [reflexivity | intros m; discriminate]
      | intros [[H _] | (root & nd & H & _)];
        [inversion H; reflexivity | discriminate] ].
Qed.

(** The lines of the freshness shape among the returned warnings. *)
Lemma stale_warning_iff_older_than_threshold_aux
    (parsedate_to_datetime : str -> option datetime)
    (strftime : datetime -> string -> string) (clock : nat -> datetime)
    (feed_path : Path) (verbose : bool) (w w' : world) (root : Element)
    (ok : bool) (ws es : list string) :
  parsed feed_path = Ok root ->
  findall_descendants (u "item") root <> [] ->
  check_feed parsedate_to_datetime strftime clock feed_path verbose w
  = (Ok (ok, ws, es), w') ->
  match newest_date (scan parsedate_to_datetime
                          (findall_descendants (u "item") root)) with
  | None => filter is_stale_warning ws = []
  | Some nd =>
      exists age,
        sub (in_utc (clock (now_calls w))) nd = Ok age
        /\ filter is_stale_warning ws
           = if (30 * us_per_day <? age)%Z
             then [stale_msg strftime age nd] else []
  end.
Proof.
  intros Hp Hne Hc.
  destruct (check_feed_items_inv _ _ _ _ _ _ Hp Hne Hc)
    as (stale & Hf & _ & Hws & _).
  apply freshness_inv in Hf.
  assert (Hfilter : filter is_stale_warning ws
                    = filter is_stale_warning stale).
  { rewrite Hws, !filter_app, !filter_when, !missing_msg_not_stale,
      !andb_false_r. reflexivity. }
  destruct (newest_date (scan parsedate_to_datetime
                              (findall_descendants (u "item") root)))
    as [nd|].
  - destruct Hf as (age & Hsub & Hstale). exists age.
    split; [exact Hsub|].
    rewrite Hfilter, Hstale, filter_when. unfold timedelta_of_days,
      STALE_DAYS. destruct (30 * us_per_day <? age)%Z; reflexivity.
  - rewrite Hfilter, Hf. reflexivity.
Qed.

(** X6. The age is the time between the reading of the clock and the
    instant the newest date denotes, whatever its zone. In a returned
    result there is no freshness line when that age is 30 days or less (so
    also for a date in the future), and when the age is more, the one
    freshness line reports at least 30 days. *)
Theorem stale_warning_reports_at_least_30_days
    (parsedate_to_datetime : str -> option datetime)
    (strftime : datetime -> string -> string) (clock : nat -> datetime)
    (feed_path : Path) (verbose : bool) (w w' : world) (root : Element)
    (ok : bool) (ws es : list string) (nd : datetime) :
  parsed feed_path = Ok root ->
  newest_date (scan parsedate_to_datetime
                    (findall_descendants (u "item") root)) = Some nd ->
  check_feed parsedate_to_datetime strftime clock feed_path verbose w
  = (Ok (ok, ws, es), w') ->
  let age := (wall_us (clock (now_calls w)) - instant nd)%Z in
  sub (in_utc (clock (now_calls w))) nd = Ok age
  /\ ((age <= 30 * us_per_day)%Z -> filter is_stale_warning ws = [])
  /\ ((30 * us_per_day < age)%Z ->
      filter is_stale_warning ws = [stale_msg strftime age nd]
      /\ (30 <= days age)%Z).
Proof.
  intros Hp Hn Hc age.
  assert (Hne : findall_descendants (u "item") root <> []).
  { intros E. rewrite E in Hn. discriminate. }
  pose proof (stale_warning_iff_older_than_threshold_aux
                parsedate_to_datetime strftime clock feed_path verbose w
                Hp Hne Hc) as H.
  rewrite Hn in H. destruct H as (age' & Hsub & Hshape).
  assert (Ha : age' = age).
  { unfold sub in Hsub. simpl in Hsub. unfold age, instant.
    destruct (tzinfo nd) as [off|]; [|discriminate].
    inversion Hsub. unfold wall_us, toordinal; simpl. lia. }
  subst age'. split; [exact Hsub|]. split.
  - intros Hle. rewrite Hshape.
    replace (30 * us_per_day <? age)%Z with false; [reflexivity|].
    symmetry. apply Z.ltb_ge. exact Hle.
  - intros Hlt. rewrite Hshape.
    replace (30 * us_per_day <? age)%Z with true
      by (symmetry; apply Z.ltb_lt; exact Hlt).
    split; [reflexivity|]. unfold days.
    apply Z.div_le_lower_bound; [reflexivity|]. lia.
Qed.

Lemma stale_warning_reports_at_least_30_days_witness :
  newest_date
    (scan Sample.parsedate
       (findall_descendants
          (u "item")
          (Sample.rss [Sample.entry "Mon, 01 Jan 2024 00:00:00 +0000"])))
  = Some (Sample.aware 2024 1 1)
  /\ sub (in_utc (Sample.clock (now_calls Sample.w0)))
         (Sample.aware 2024 1 1)
     = Ok (wall_us (Sample.clock (now_calls Sample.w0))
           - instant (Sample.aware 2024 1 1))%Z.
Proof.
  split; [reflexivity|].
  destruct (@stale_warning_reports_at_least_30_days Sample.parsedate
              Sample.strftime Sample.clock Sample.feed_45_days false
              Sample.w0 (World 1 []) _ true
              ["Stale: newest entry is 45 days old (2024-01-01)"] []
              (Sample.aware 2024 1 1) eq_refl eq_refl eq_refl) as [H _].
  exact H.
Defined.

(* ================================================================== *)
(** * Further properties of the newest date *)

Section NewestDateInGeneral.

Variable parsedate_to_datetime : str -> option datetime.

Lemma gt_other_kind (a b : datetime) :
  is_aware a <> is_aware b -> gt a b = Raise TypeError.
Proof.
  unfold is_aware, gt. destruct (tzinfo a), (tzinfo b); congruence.
Qed.

Lemma same_kind_later (nd dt x : datetime) :
  is_aware dt = is_aware nd ->
  same_kind (later nd dt) x = same_kind nd x.
Proof.
  intros H. unfold same_kind, later.
  destruct (instant nd <? instant dt)%Z; [rewrite H|]; reflexivity.
Qed.

(** Once a newest date is set, the loop keeps the most recent among it and
    the later dates of its kind; dates of the other kind change nothing. *)
Lemma fold_scan_newest_from (items : list Element) (t0 : tally)
    (nd : datetime) :
  newest_date t0 = Some nd ->
  newest_date (fold_left (scan_item parsedate_to_datetime) items t0)
  = Some (fold_left later
                    (filter (same_kind nd)
                            (parsed_dates parsedate_to_datetime items)) nd).
Proof.
  revert t0 nd. induction items as [|item items IH]; intros t0 nd H0; simpl.
  - exact H0.
  - pose proof (scan_item_newest parsedate_to_datetime t0 item) as Hn.
    rewrite H0 in Hn. rewrite filter_app.
    destruct (pub_date parsedate_to_datetime item) as [dt|]; simpl.
    + unfold same_kind at 1.
      destruct (Bool.eqb (is_aware dt) (is_aware nd)) eqn:Ek.
      * apply Bool.eqb_prop in Ek.
        rewrite (gt_same_kind dt nd Ek) in Hn.
        assert (Hn' : newest_date (scan_item parsedate_to_datetime t0 item)
                      = Some (later nd dt))
          by (rewrite Hn; unfold later;
              destruct (instant nd <? instant dt)%Z; reflexivity).
        rewrite (IH _ _ Hn'). simpl. f_equal. f_equal.
        apply filter_ext. intros x. apply same_kind_later. exact Ek.
      * rewrite gt_other_kind in Hn
          by (intros E; rewrite E, Bool.eqb_reflx in Ek; discriminate).
        rewrite (IH _ _ Hn). reflexivity.
    + rewrite (IH _ _ Hn). reflexivity.
Qed.

Lemma fold_scan_newest_none (items : list Element) (t0 : tally) :
  newest_date t0 = None ->
  newest_date (fold_left (scan_item parsedate_to_datetime) items t0)
  = match parsed_dates parsedate_to_datetime items with
    | [] => None
    | d :: _ =>
        most_recent (filter (same_kind d)
                            (parsed_dates parsedate_to_datetime items))
    end.
Proof.
  revert t0. induction items as [|item items IH]; intros t0 H0; simpl.
  - exact H0.
  - pose proof (scan_item_newest parsedate_to_datetime t0 item) as Hn.
    rewrite H0 in Hn.
    destruct (pub_date parsedate_to_datetime item) as [dt|]; simpl.
    + rewrite (fold_scan_newest_from items _ Hn).
      unfold same_kind at 2. rewrite Bool.eqb_reflx. reflexivity.
    + apply IH. exact Hn.
Qed.

End NewestDateInGeneral.

(** X7. Whatever the dates, the newest date the loop ends with is the most
    recent among the successfully parsed dates that are aware, when the
    first parsed date is aware, and among the naive ones, when it is naive;
    parsed dates of the other kind are ignored. There is no newest date
    exactly when no date parsed. *)
Theorem newest_date_follows_first_kind
    (parsedate_to_datetime : str -> option datetime)
    (items : list Element) :
  newest_date (scan parsedate_to_datetime items)
  = match parsed_dates parsedate_to_datetime items with
    | [] => None
    | d :: _ =>
        most_recent (filter (same_kind d)
                            (parsed_dates parsedate_to_datetime items))
    end.
Proof. apply fold_scan_newest_none. reflexivity. Qed.

Lemma scan_newest_aware_max_witness :
  Forall (fun d => is_aware d = true)
         (parsed_dates Sample.parsedate
            [Sample.entry "Mon, 01 Jan 2024 00:00:00 +0000";
             Sample.entry "yesterday";
             Sample.entry "Mon, 05 Feb 2024 00:00:00 +0000"])
  /\ match newest_date
             (scan Sample.parsedate
                [Sample.entry "Mon, 01 Jan 2024 00:00:00 +0000";
                 Sample.entry "yesterday";
                 Sample.entry "Mon, 05 Feb 2024 00:00:00 +0000"]) with
     | Some nd =>
         In nd (parsed_dates Sample.parsedate
                  [Sample.entry "Mon, 01 Jan 2024 00:00:00 +0000";
                   Sample.entry "yesterday";
                   Sample.entry "Mon, 05 Feb 2024 00:00:00 +0000"])
         /\ Forall (fun d => (instant d <= instant nd)%Z)
                   (parsed_dates Sample.parsedate
                      [Sample.entry "Mon, 01 Jan 2024 00:00:00 +0000";
                       Sample.entry "yesterday";
                       Sample.entry "Mon, 05 Feb 2024 00:00:00 +0000"])
     | None =>
         parsed_dates Sample.parsedate
           [Sample.entry "Mon, 01 Jan 2024 00:00:00 +0000";
            Sample.entry "yesterday";
            Sample.entry "Mon, 05 Feb 2024 00:00:00 +0000"] = []
     end.
Proof.
  assert (H : Forall (fun d => is_aware d = true)
                (parsed_dates Sample.parsedate
                   [Sample.entry "Mon, 01 Jan 2024 00:00:00 +0000";
                    Sample.entry "yesterday";
                    Sample.entry "Mon, 05 Feb 2024 00:00:00 +0000"]))
    by (vm_compute; repeat constructor).
  split; [exact H|].
  apply (@scan_newest_aware_max Sample.parsedate _ H).
Defined.

Lemma unparseable_date_is_ignored_witness :
  find (u "pubDate") (Sample.entry "yesterday")
  = Some (Sample.field "pubDate" "yesterday")
  /\ absent_or_blank (Some (Sample.field "pubDate" "yesterday")) = false
  /\ Sample.parsedate
       (strip (or_empty (text (Sample.field "pubDate" "yesterday")))) = None
  /\ newest_date
       (scan_item Sample.parsedate
          (mkTally 0 0 0 (Some (Sample.aware 2024 1 1)))
          (Sample.entry "yesterday"))
     = newest_date (mkTally 0 0 0 (Some (Sample.aware 2024 1 1)))
  /\ missing_dates
       (scan_item Sample.parsedate
          (mkTally 0 0 0 (Some (Sample.aware 2024 1 1)))
          (Sample.entry "yesterday"))
     = missing_dates (mkTally 0 0 0 (Some (Sample.aware 2024 1 1))).
Proof.
  split; [reflexivity|]. split; [reflexivity|]. split; [reflexivity|].
  apply (@unparseable_date_is_ignored Sample.parsedate
           (mkTally 0 0 0 (Some (Sample.aware 2024 1 1)))
           (Sample.entry "yesterday") (Sample.field "pubDate" "yesterday"));
    reflexivity.
Defined.

(* ================================================================== *)
(** * Further properties of the driver *)

Section DriverOutput.

Variable parsedate_to_datetime : str -> option datetime.
Variable strftime : datetime -> string -> string.
Variable clock : nat -> datetime.

Lemma for_feeds_app (verbose : bool) (l1 l2 : list Path) (c : counts)
    (w : world) :
  for_feeds parsedate_to_datetime strftime clock verbose (l1 ++ l2) c w
  = bind (for_feeds parsedate_to_datetime strftime clock verbose l1 c)
         (for_feeds parsedate_to_datetime strftime clock verbose l2) w.
Proof.
  revert c w. induction l1 as [|f l1 IH]; intros c w; simpl.
  - reflexivity.
  - unfold bind in *.
    destruct (report_feed parsedate_to_datetime strftime clock verbose c f w)
      as [[c1|e] w1]; [|reflexivity].
    apply IH.
Qed.

Lemma report_tail (ws es : list string) (c : counts) (w : world) :
  (for_each ws (fun x => print ("         ^ " ++ x)) ;;
   for_each es (fun x => print ("         ! " ++ x)) ;;
   ret c)%py w
  = (Ok c,
     World (now_calls w)
           (stdout w ++ map (fun x => ("         ^ " ++ x)%string) ws
            ++ map (fun x => ("         ! " ++ x)%string) es)).
Proof.
  unfold bind. rewrite for_each_print. rewrite for_each_print. unfold ret.
  simpl. rewrite <- app_assoc. reflexivity.
Qed.

Lemma summary_run (total : nat) (c : counts) (w : world) :
  summary total c w
  = (Raise (SystemExit (if (0 <? error_count c)%nat then 1 else 0)%Z),
     World (now_calls w) (stdout w ++ summary_lines total c)).
Proof.
  unfold summary, summary_lines, bind, print, ret, sys_exit, raise.
  destruct (0 <? warn_count c)%nat, (0 <? error_count c)%nat; simpl;
    rewrite <- ?app_assoc; reflexivity.
Qed.

End DriverOutput.

(** X10. When the check of a file returns [(ok, ws, es)], the driver
    prints one status line, "  [OK  ] <name>" for [ok] without warnings,
    "  [WARN] <name>" for [ok] with warnings and "  [FAIL] <name>"
    otherwise, then one line "         ^ <w>" per warning and then one line
    "         ! <e>" per error, in the order of the result, and adds one to
    the counter of that status. *)
Theorem report_feed_output
    (parsedate_to_datetime : str -> option datetime)
    (strftime : datetime -> string -> string) (clock : nat -> datetime)
    (verbose : bool) (c : counts) (feed_path : Path) (w w1 : world)
    (ok : bool) (ws es : list string) :
  check_feed parsedate_to_datetime strftime clock feed_path verbose w
  = (Ok (ok, ws, es), w1) ->
  report_feed parsedate_to_datetime strftime clock verbose c feed_path w
  = (Ok (bump ok ws c),
     World (now_calls w1)
           (stdout w1 ++ report_lines (name feed_path) ok ws es)).
Proof.
  intros Hc. unfold report_feed. unfold bind at 1. rewrite Hc.
  unfold report_lines, bump.
  destruct ok, ws as [|x ws]; cbn [andb negb truthy];
    unfold bind at 1; unfold print at 1; cbv beta iota;
    rewrite report_tail; cbn [now_calls stdout];
    rewrite <- app_assoc; reflexivity.
Qed.

Lemma report_feed_output_witness :
  check_feed Sample.parsedate Sample.strftime Sample.clock
             Sample.feed_no_links false Sample.w0
  = (Ok (false,
         ["1/2 entries missing title"; "1/2 entries missing pubDate"],
         ["2/2 entries missing link"]), Sample.w0)
  /\ report_feed Sample.parsedate Sample.strftime Sample.clock false
                 (mkCounts 0 0 0) Sample.feed_no_links Sample.w0
     = (Ok (bump false
                 ["1/2 entries missing title"; "1/2 entries missing pubDate"]
                 (mkCounts 0 0 0)),
        World (now_calls Sample.w0)
              (stdout Sample.w0
               ++ report_lines
                    (name Sample.feed_no_links) false
                    ["1/2 entries missing title";
                     "1/2 entries missing pubDate"]
                    ["2/2 entries missing link"])).
Proof.
  split; [reflexivity|].
  apply (@report_feed_output Sample.parsedate Sample.strftime Sample.clock
           false (mkCounts 0 0 0) Sample.feed_no_links Sample.w0 Sample.w0).
  reflexivity.
Defined.

(** X11. The loop stops at the first file whose check raises: the
    exception leaves the loop with the world as that check left it, and
    the files after it are neither checked nor reported. *)
Theorem loop_stops_at_first_exception
    (parsedate_to_datetime : str -> option datetime)
    (strftime : datetime -> string -> string) (clock : nat -> datetime)
    (verbose : bool) (done rest : list Path) (feed_path : Path)
    (c c1 : counts) (w w1 w2 : world) (e : exn) :
  for_feeds parsedate_to_datetime strftime clock verbose done c w
  = (Ok c1, w1) ->
  check_feed parsedate_to_datetime strftime clock feed_path verbose w1
  = (Raise e, w2) ->
  for_feeds parsedate_to_datetime strftime clock verbose
            (done ++ feed_path :: rest) c w
  = (Raise e, w2).
Proof.
  intros Hdone Hc. rewrite for_feeds_app. unfold bind at 1. rewrite Hdone.
  simpl. unfold bind at 1.
  rewrite (report_feed_raises _ _ _ _ c1 _ _ Hc). reflexivity.
Qed.

Lemma loop_stops_at_first_exception_witness :
  for_feeds Sample.parsedate Sample.strftime Sample.clock false
            [Sample.feed_10_days] (mkCounts 0 0 0) Sample.w0
  = (Ok (mkCounts 1 0 0), World 1 ["  [OK  ] feed_new.xml"])
  /\ check_feed Sample.parsedate Sample.strftime Sample.clock
                Sample.feed_naive false (World 1 ["  [OK  ] feed_new.xml"])
     = (Raise TypeError, World 2 ["  [OK  ] feed_new.xml"])
  /\ for_feeds Sample.parsedate Sample.strftime Sample.clock false
               ([Sample.feed_10_days]
                ++ Sample.feed_naive :: [Sample.feed_45_days])
               (mkCounts 0 0 0) Sample.w0
     = (Raise TypeError, World 2 ["  [OK  ] feed_new.xml"]).
Proof.
  split; [reflexivity|]. split; [reflexivity|].
  apply (@loop_stops_at_first_exception Sample.parsedate Sample.strftime
           Sample.clock false [Sample.feed_10_days] [Sample.feed_45_days]
           Sample.feed_naive (mkCounts 0 0 0) (mkCounts 1 0 0) Sample.w0
           (World 1 ["  [OK  ] feed_new.xml"]));
    reflexivity.
Defined.

(** X12. When the check of a file raises, [main] ends with that exception
    and the world as the check left it: no summary is printed and the
    status of [sys.exit] is never computed. *)
Theorem main_propagates_exception
    (parsedate_to_datetime : str -> option datetime)
    (strftime : datetime -> string -> string) (clock : nat -> datetime)
    (FEEDS_DIR : string) (verbose : bool) (entries : list Path)
    (w w1 : world) (e : exn) :
  let feeds := sorted (glob_feed_xml entries) in
  let w0 := World (now_calls w)
                  (stdout w ++ [header FEEDS_DIR (List.length feeds)]) in
  for_feeds parsedate_to_datetime strftime clock verbose feeds
            (mkCounts 0 0 0) w0 = (Raise e, w1) ->
  main parsedate_to_datetime strftime clock FEEDS_DIR (Some entries)
       verbose w
  = (Raise e, w1).
Proof.
  intros feeds w0 Hrun.
  assert (Hne : feeds <> []).
  { intros E. unfold w0 in Hrun. rewrite E in Hrun. discriminate. }
  unfold main. fold feeds.
  replace (negb (truthy feeds)) with false
    by (destruct feeds; [congruence | reflexivity]).
  unfold bind at 1. unfold print at 1.
  fold (header FEEDS_DIR (List.length feeds)). fold w0.
  unfold bind at 1. rewrite Hrun. reflexivity.
Qed.

Lemma main_propagates_exception_witness :
  for_feeds Sample.parsedate Sample.strftime Sample.clock false
            (sorted (glob_feed_xml [Sample.feed_10_days; Sample.feed_naive]))
            (mkCounts 0 0 0)
            (World (now_calls Sample.w0)
                   (stdout Sample.w0
                    ++ [header "/srv/feeds"
                          (List.length
                             (sorted (glob_feed_xml
                                        [Sample.feed_10_days;
                                         Sample.feed_naive])))]))
  = (Raise TypeError, World 1 [header "/srv/feeds" 2])
  /\ main Sample.parsedate Sample.strftime Sample.clock "/srv/feeds"
          (Some [Sample.feed_10_days; Sample.feed_naive]) false Sample.w0
     = (Raise TypeError, World 1 [header "/srv/feeds" 2]).
Proof.
  split; [reflexivity|].
  apply (@main_propagates_exception Sample.parsedate Sample.strftime
           Sample.clock "/srv/feeds" false
           [Sample.feed_10_days; Sample.feed_naive] Sample.w0).
  reflexivity.
Defined.

(** X13. A run whose loop completes ends with the summary block after the
    lines of the loop: "--- Summary ---" after an empty line, then
    "  Healthy: <h>/<total>" always, "  Warnings: <w>/<total>" only when
    [w > 0] and "  Errors: <e>/<total>" only when [e > 0]; it then exits
    with status 1 when [e > 0] and 0 otherwise. *)
Theorem main_complete_run
    (parsedate_to_datetime : str -> option datetime)
    (strftime : datetime -> string -> string) (clock : nat -> datetime)
    (FEEDS_DIR : string) (verbose : bool) (entries : list Path)
    (w w1 : world) (c : counts) :
  let feeds := sorted (glob_feed_xml entries) in
  let w0 := World (now_calls w)
                  (stdout w ++ [header FEEDS_DIR (List.length feeds)]) in
  feeds <> [] ->
  for_feeds parsedate_to_datetime strftime clock verbose feeds
            (mkCounts 0 0 0) w0 = (Ok c, w1) ->
  main parsedate_to_datetime strftime clock FEEDS_DIR (Some entries)
       verbose w
  = (Raise (SystemExit (if (0 <? error_count c)%nat then 1 else 0)%Z),
     World (now_calls w1)
           (stdout w1 ++ summary_lines (List.length feeds) c)).
Proof.
  intros feeds w0 Hne Hrun. unfold main. fold feeds.
  replace (negb (truthy feeds)) with false
    by (destruct feeds; [congruence | reflexivity]).
  unfold bind at 1. unfold print at 1.
  fold (header FEEDS_DIR (List.length feeds)). fold w0.
  unfold bind at 1. rewrite Hrun. apply summary_run.
Qed.

Lemma main_complete_run_witness :
  sorted (glob_feed_xml [Sample.feed_45_days; Sample.feed_10_days]) <> []
  /\ main Sample.parsedate Sample.strftime Sample.clock "/srv/feeds"
          (Some [Sample.feed_45_days; Sample.feed_10_days]) false Sample.w0
     = (Raise (SystemExit
                 (if (0 <? error_count (mkCounts 1 1 0))%nat then 1 else 0)%Z),
        World (now_calls
                 (World 2 [header "/srv/feeds" 2;
                           "  [OK  ] feed_new.xml";
                           "  [WARN] feed_old.xml";
                           "         ^ Stale: newest entry is 45 days old (2024-01-01)"]))
              (stdout
                 (World 2 [header "/srv/feeds" 2;
                           "  [OK  ] feed_new.xml";
                           "  [WARN] feed_old.xml";
                           "         ^ Stale: newest entry is 45 days old (2024-01-01)"])
               ++ summary_lines
                    (List.length
                       (sorted (glob_feed_xml [Sample.feed_45_days;
                                               Sample.feed_10_days])))
                    (mkCounts 1 1 0))).
Proof.
  assert (Hne : sorted (glob_feed_xml [Sample.feed_45_days;
                                       Sample.feed_10_days]) <> [])
    by (vm_compute; discriminate).
  split; [exact Hne|].
  apply (@main_complete_run Sample.parsedate Sample.strftime Sample.clock
           "/srv/feeds" false [Sample.feed_45_days; Sample.feed_10_days]
           Sample.w0 _ (mkCounts 1 1 0) Hne).
  reflexivity.
Defined.

(* ================================================================== *)
(** * The files of a run *)

Lemma string_compare_le_trans (a b c : string) :
  String.compare a b <> Gt -> String.compare b c <> Gt ->
  String.compare a c <> Gt.
Proof.
  revert b c. induction a as [|x a IH]; intros [|y b] [|z c]; simpl;
    try congruence.
  unfold Ascii.compare.
  destruct (N.compare_spec (N_of_ascii x) (N_of_ascii y)) as [Exy|Lxy|Gxy];
    destruct (N.compare_spec (N_of_ascii y) (N_of_ascii z)) as [Eyz|Lyz|Gyz];
    intros Hab Hbc; try congruence.
  - rewrite Exy, Eyz, N.compare_refl. apply IH with b; assumption.
  - rewrite Exy. rewrite (proj2 (N.compare_lt_iff _ _) Lyz). discriminate.
  - rewrite <- Eyz. rewrite (proj2 (N.compare_lt_iff _ _) Lxy). discriminate.
  - rewrite (proj2 (N.compare_lt_iff _ _) (N.lt_trans _ _ _ Lxy Lyz)).
    discriminate.
Qed.

Lemma string_leb_trans (a b c : string) :
  String.leb a b = true -> String.leb b c = true -> String.leb a c = true.
Proof.
  unfold String.leb. intros Hab Hbc.
  pose proof (@string_compare_le_trans a b c) as H.
  destruct (String.compare a b), (String.compare b c),
    (String.compare a c); try reflexivity; try discriminate;
    exfalso; apply H; congruence.
Qed.

Lemma insert_path_perm (p : Path) (l : list Path) :
  Permutation (p :: l) (insert_path p l).
Proof.
  induction l as [|q l IH]; simpl; [apply Permutation_refl|].
  destruct (String.leb (name p) (name q)); [apply Permutation_refl|].
  apply perm_trans with (q :: p :: l); [apply perm_swap|].
  apply perm_skip. exact IH.
Qed.

Lemma sorted_perm (l : list Path) : Permutation l (sorted l).
Proof.
  induction l as [|p l IH]; simpl; [apply perm_nil|].
  apply perm_trans with (p :: sorted l);
    [apply perm_skip; exact IH | apply insert_path_perm].
Qed.

Lemma insert_path_sorted (p : Path) (l : list Path) :
  Sorted name_le l -> Sorted name_le (insert_path p l).
Proof.
  induction 1 as [|q l Hs IH Hd]; simpl.
  - repeat constructor.
  - destruct (String.leb (name p) (name q)) eqn:E.
    + constructor; [constructor; assumption|]. constructor. exact E.
    + constructor; [exact IH|].
      assert (Hqp : name_le q p).
      { unfold name_le. destruct (String.leb_total (name p) (name q));
          congruence. }
      destruct l as [|r l]; simpl.
      * constructor. exact Hqp.
      * destruct (String.leb (name p) (name r)); constructor;
          [exact Hqp | inversion Hd; assumption].
Qed.

Lemma sorted_Sorted (l : list Path) : Sorted name_le (sorted l).
Proof.
  induction l as [|p l IH]; simpl; [constructor|].
  apply insert_path_sorted. exact IH.
Qed.

(** X14. [sorted] keeps exactly the files it is given, each as often as it
    occurs, and puts them in ascending order of file name: every file
    comes before all files with a greater name. *)
Theorem sorted_is_ordered_permutation (l : list Path) :
  Permutation l (sorted l) /\ StronglySorted name_le (sorted l).
Proof.
  split; [apply sorted_perm|].
  apply Sorted_StronglySorted; [|apply sorted_Sorted].
  intros a b c. unfold name_le. apply string_leb_trans.
Qed.

Lemma string_leb_flip_false (a b : string) :
  String.leb a b = false -> String.leb b a = true.
Proof. intros H. destruct (String.leb_total a b); congruence. Qed.

Lemma string_leb_flip_true (a b : string) :
  a <> b -> String.leb a b = true -> String.leb b a = false.
Proof.
  intros Hne H. destruct (String.leb b a) eqn:E; [|reflexivity].
  exfalso. apply Hne. apply String.leb_antisym; assumption.
Qed.

Lemma insert_path_comm (p q : Path) (l : list Path) :
  name p <> name q ->
  insert_path p (insert_path q l) = insert_path q (insert_path p l).
Proof.
  intros Hpq. induction l as [|r l IH]; simpl.
  - destruct (String.leb (name p) (name q)) eqn:E.
    + rewrite (string_leb_flip_true Hpq E). reflexivity.
    + rewrite (string_leb_flip_false _ _ E). reflexivity.
  - destruct (String.leb (name q) (name r)) eqn:Eq;
      destruct (String.leb (name p) (name r)) eqn:Ep; simpl.
    + destruct (String.leb (name p) (name q)) eqn:E.
      * rewrite (string_leb_flip_true Hpq E), Eq. reflexivity.
      * rewrite (string_leb_flip_false _ _ E), Ep. reflexivity.
    + assert (E : String.leb (name p) (name q) = false).
      { destruct (String.leb (name p) (name q)) eqn:E; [|reflexivity].
        rewrite (string_leb_trans _ _ _ E Eq) in Ep. discriminate. }
      rewrite E, Ep, Eq. reflexivity.
    + assert (E : String.leb (name q) (name p) = false).
      { destruct (String.leb (name q) (name p)) eqn:E; [|reflexivity].
        rewrite (string_leb_trans _ _ _ E Ep) in Eq. discriminate. }
      rewrite E, Ep, Eq. reflexivity.
    + rewrite Ep, Eq, IH. reflexivity.
Qed.

Lemma sorted_of_perm (l l' : list Path) :
  Permutation l l' -> NoDup (map name l) -> sorted l = sorted l'.
Proof.
  induction 1 as [|p l l' Hp IH|p q l|l l' l'' H1 IH1 H2 IH2]; intros Hnd.
  - reflexivity.
  - simpl. rewrite IH; [reflexivity|]. inversion Hnd; assumption.
  - simpl. apply insert_path_comm.
    simpl in Hnd. inversion Hnd as [|? ? Hnin _]. intros E. apply Hnin.
    left. symmetry. exact E.
  - rewrite IH1 by exact Hnd. apply IH2.
    apply Permutation_NoDup with (map name l); [|exact Hnd].
    apply Permutation_map. exact H1.
Qed.

Lemma glob_perm (l l' : list Path) :
  Permutation l l' -> Permutation (glob_feed_xml l) (glob_feed_xml l').
Proof.
  unfold glob_feed_xml.
  induction 1 as [|p l l' Hp IH|p q l|l l' l'' H1 IH1 H2 IH2]; simpl.
  - apply perm_nil.
  - destruct (fnmatch_feed_xml (name p)); [apply perm_skip|]; exact IH.
  - destruct (fnmatch_feed_xml (name p)), (fnmatch_feed_xml (name q));
      try apply Permutation_refl. apply perm_swap.
  - apply perm_trans with (filter (fun p => fnmatch_feed_xml (name p)) l');
      assumption.
Qed.

Lemma glob_names_nodup (l : list Path) :
  NoDup (map name l) -> NoDup (map name (glob_feed_xml l)).
Proof.
  unfold glob_feed_xml. induction l as [|p l IH]; simpl; intros Hnd.
  - constructor.
  - inversion Hnd as [|? ? Hnin Hnd']; subst.
    destruct (fnmatch_feed_xml (name p)); simpl; [|apply IH; exact Hnd'].
    constructor; [|apply IH; exact Hnd'].
    intros Hin. apply Hnin. apply in_map_iff in Hin.
    destruct Hin as (q & Hq & Hin). apply filter_In in Hin.
    apply in_map_iff. exists q. tauto.
Qed.

(** X16. The order in which the directory lists its files does not matter:
    two listings of the same files, with pairwise different names, give the
    same run of [main], with the same output and the same exit. *)
Theorem listing_order_is_irrelevant
    (parsedate_to_datetime : str -> option datetime)
    (strftime : datetime -> string -> string) (clock : nat -> datetime)
    (FEEDS_DIR : string) (verbose : bool) (entries entries' : list Path)
    (w : world) :
  NoDup (map name entries) ->
  Permutation entries entries' ->
  main parsedate_to_datetime strftime clock FEEDS_DIR (Some entries)
       verbose w
  = main parsedate_to_datetime strftime clock FEEDS_DIR (Some entries')
         verbose w.
Proof.
  intros Hnd Hp. unfold main.
  rewrite (@sorted_of_perm _ _ (@glob_perm _ _ Hp)
             (@glob_names_nodup entries Hnd)).
  reflexivity.
Qed.

Lemma listing_order_is_irrelevant_witness :
  NoDup (map name [Sample.feed_45_days; Sample.feed_10_days])
  /\ Permutation [Sample.feed_45_days; Sample.feed_10_days]
                 [Sample.feed_10_days; Sample.feed_45_days]
  /\ main Sample.parsedate Sample.strftime Sample.clock "/srv/feeds"
          (Some [Sample.feed_45_days; Sample.feed_10_days]) true Sample.w0
     = main Sample.parsedate Sample.strftime Sample.clock "/srv/feeds"
            (Some [Sample.feed_10_days; Sample.feed_45_days]) true Sample.w0.
Proof.
  assert (Hnd : NoDup (map name [Sample.feed_45_days; Sample.feed_10_days])).
  { simpl. constructor.
    - intros [H | []]. discriminate.
    - constructor; [intros [] | constructor]. }
  assert (Hp : Permutation [Sample.feed_45_days; Sample.feed_10_days]
                           [Sample.feed_10_days; Sample.feed_45_days])
    by apply perm_swap.
  split; [exact Hnd|]. split; [exact Hp|].
  apply (@listing_order_is_irrelevant Sample.parsedate Sample.strftime
           Sample.clock "/srv/feeds" true _ _ Sample.w0 Hnd Hp).
Defined.

Lemma string_length_append (a b : string) :
  String.length (a ++ b) = String.length a + String.length b.
Proof. induction a as [|c a IH]; simpl; [|rewrite IH]; reflexivity. Qed.

Lemma substring_whole (s : string) : substring 0 (String.length s) s = s.
Proof. induction s as [|c s IH]; simpl; [|rewrite IH]; reflexivity. Qed.

Lemma substring_skip (p r : string) (m : nat) :
  substring (String.length p) m (p ++ r) = substring 0 m r.
Proof. induction p as [|c p IH]; simpl; [reflexivity | exact IH]. Qed.

Lemma substring_split (s : string) (k : nat) :
  k <= String.length s ->
  s = (substring 0 k s ++ substring k (String.length s - k) s)%string.
Proof.
  revert k. induction s as [|c s IH]; intros [|k] Hk; simpl in *;
    try reflexivity; try lia.
  - rewrite substring_whole. reflexivity.
  - f_equal. apply IH. lia.
Qed.

Lemma prefix_iff (p s : string) :
  prefix p s = true <-> exists r, s = (p ++ r)%string.
Proof.
  revert s. induction p as [|c p IH]; intros s; simpl.
  - destruct s; split; eauto.
  - destruct s as [|d s]; simpl.
    + split; [discriminate | intros [r H]; discriminate].
    + destruct (ascii_dec c d) as [->|Hne].
      * rewrite IH. split; intros [r H]; exists r;
          [rewrite H; reflexivity | inversion H; reflexivity].
      * split; [discriminate|]. intros [r H]. inversion H. congruence.
Qed.

Lemma ends_with_iff (suffix s : string) :
  ends_with suffix s = true <-> exists m, s = (m ++ suffix)%string.
Proof.
  unfold ends_with. rewrite andb_true_iff, Nat.leb_le, String.eqb_eq. split.
  - intros [Hle Hs].
    exists (substring 0 (String.length s - String.length suffix) s).
    assert (Hk : String.length s - String.length suffix <= String.length s)
      by lia.
    pose proof (substring_split s Hk) as Hsplit.
    replace (String.length s - (String.length s - String.length suffix))
      with (String.length suffix) in Hsplit by lia.
    rewrite Hs in Hsplit. exact Hsplit.
  - intros [m ->]. rewrite string_length_append. split; [lia|].
    replace (String.length m + String.length suffix - String.length suffix)
      with (String.length m) by lia.
    rewrite substring_skip. apply substring_whole.
Qed.

Lemma fnmatch_feed_xml_iff (n : string) :
  fnmatch_feed_xml n = true
  <-> exists middle, n = ("feed_" ++ middle ++ ".xml")%string.
Proof.
  unfold fnmatch_feed_xml. rewrite andb_true_iff, prefix_iff. split.
  - intros [[r ->] H].
    change 5 with (String.length "feed_") in H.
    rewrite string_length_append in H.
    replace (String.length "feed_" + String.length r - String.length "feed_")
      with (String.length r) in H by lia.
    rewrite substring_skip, substring_whole in H.
    apply ends_with_iff in H. destruct H as [m ->]. exists m. reflexivity.
  - intros [m ->]. split; [exists (m ++ ".xml")%string; reflexivity|].
    change 5 with (String.length "feed_").
    rewrite string_length_append.
    replace (String.length "feed_" + String.length (m ++ ".xml")
             - String.length "feed_")
      with (String.length (m ++ ".xml")) by lia.
    rewrite substring_skip, substring_whole.
    apply ends_with_iff. exists m. reflexivity.
Qed.

(** X15. The files of a run are exactly the entries of the directory whose
    name is "feed_", then any characters (possibly none), then ".xml";
    every other entry is left alone. *)
Theorem only_feed_files_are_checked (entries : list Path) (p : Path) :
  In p (sorted (glob_feed_xml entries))
  <-> In p entries
      /\ exists middle, name p = ("feed_" ++ middle ++ ".xml")%string.
Proof.
  rewrite in_sorted. unfold glob_feed_xml. rewrite filter_In.
  rewrite fnmatch_feed_xml_iff. reflexivity.
Qed.

(** X17. What [check_feed] returns or raises for a file depends on the
    world only through the reading the clock gives at that check: the lines
    printed before, by the checks of other files, have no influence. *)
Theorem check_feed_depends_on_clock_only
    (parsedate_to_datetime : str -> option datetime)
    (strftime : datetime -> string -> string) (clock : nat -> datetime)
    (feed_path : Path) (verbose : bool) (w1 w2 : world) :
  clock (now_calls w1) = clock (now_calls w2) ->
  fst (check_feed parsedate_to_datetime strftime clock feed_path verbose w1)
  = fst (check_feed parsedate_to_datetime strftime clock feed_path verbose
                    w2).
Proof.
  intros Hclock. destruct (parsed feed_path) as [root|e] eqn:Hp.
  - destruct (findall_descendants (u "item") root) as [|i0 rest] eqn:Hi.
    + rewrite !(check_feed_without_items _ _ _ _ _ _ Hp Hi). reflexivity.
    + assert (Hne : findall_descendants (u "item") root <> [])
        by (rewrite Hi; discriminate).
      rewrite (check_feed_items _ _ _ _ verbose w1 Hp Hne).
      rewrite (check_feed_items _ _ _ _ verbose w2 Hp Hne).
      rewrite Hclock. reflexivity.
  - destruct e as [msg| | | |];
      try (rewrite !(check_feed_propagates _ _ _ _ _ _ Hp);
           [reflexivity | intros m; discriminate | intros m; discriminate]).
    rewrite !(check_feed_ParseError _ _ _ _ _ _ Hp). reflexivity.
Qed.

Lemma check_feed_depends_on_clock_only_witness :
  Sample.clock (now_calls Sample.w0)
  = Sample.clock (now_calls (World 3 ["  [OK  ] feed_a.xml"]))
  /\ fst (check_feed Sample.parsedate Sample.strftime Sample.clock
                     Sample.feed_45_days true Sample.w0)
     = fst (check_feed Sample.parsedate Sample.strftime Sample.clock
                       Sample.feed_45_days true
                       (World 3 ["  [OK  ] feed_a.xml"])).
Proof.
  split; [reflexivity|].
  apply (@check_feed_depends_on_clock_only Sample.parsedate Sample.strftime
           Sample.clock Sample.feed_45_days true Sample.w0
           (World 3 ["  [OK  ] feed_a.xml"])).
  reflexivity.
Defined.

(* ================================================================== *)
(** * Naive dates and escaping exceptions *)

(** C6, at the failing inputs. The date of [feed_naive.xml] has the zone
    [-0000] and is 45 days old when the clock reads 21 March: the
    subtraction of line 81 raises [TypeError] and no freshness warning is
    returned. In [feed_mixed.xml] the latest successfully parsed date,
    5 February, is 10 days old when the clock reads 15 February, yet the
    returned warnings hold the freshness line, for 45 days. *)
Theorem naive_dates_defeat_the_freshness_check :
  parsed_dates Sample.parsedate
               [Sample.entry "Mon, 05 Feb 2024 00:00:00 -0000"]
  = [Sample.naive 2024 2 5]
  /\ days (wall_us (Sample.clock_march 0)
           - instant (Sample.naive 2024 2 5))%Z
     = 45%Z
  /\ check_feed Sample.parsedate Sample.strftime Sample.clock_march
                Sample.feed_naive false Sample.w0
     = (Raise TypeError, World 1 [])
  /\ parsed_dates Sample.parsedate
                  [Sample.entry "Mon, 01 Jan 2024 00:00:00 +0000";
                   Sample.entry "Mon, 05 Feb 2024 00:00:00 -0000"]
     = [Sample.aware 2024 1 1; Sample.naive 2024 2 5]
  /\ days (wall_us (Sample.clock 0) - instant (Sample.naive 2024 2 5))%Z
     = 10%Z
  /\ fst (check_feed Sample.parsedate Sample.strftime Sample.clock
                     Sample.feed_mixed false Sample.w0)
     = Ok (true, ["Stale: newest entry is 45 days old (2024-01-01)"], []).
Proof. repeat split. Qed.

(** C7, at the failing input. The one item of [feed_nolink_naive.xml] has
    no link, so one link is missing, and its date has the zone [-0000]:
    the subtraction of line 81 raises [TypeError] after the findings were
    collected, and [check_feed] returns neither the error
    "1/1 entries missing link" nor [ok = False]. *)
Theorem naive_date_hides_the_missing_link :
  count_missing "link"
    (findall_descendants
       (u "item")
       (Sample.rss [Sample.item
                      [Sample.field "title" "A post";
                       Sample.field "pubDate"
                                    "Mon, 05 Feb 2024 00:00:00 -0000"]]))
  = 1
  /\ parsed Sample.feed_nolink_naive
     = Ok (Sample.rss [Sample.item
                         [Sample.field "title" "A post";
                          Sample.field "pubDate"
                                       "Mon, 05 Feb 2024 00:00:00 -0000"]])
  /\ check_feed Sample.parsedate Sample.strftime Sample.clock
                Sample.feed_nolink_naive false Sample.w0
     = (Raise TypeError, World 1 []).
Proof. repeat split. Qed.

(** C8, counterexample. Three files match; [feed_new.xml] is checked and
    counted as OK, [ET.parse] raises [PermissionError] on [feed_nope.xml],
    and the loop ends with that exception: [feed_old.xml] is never checked
    and lies in no bucket, and no counters are left to add up. *)
Lemma raising_check_leaves_files_unclassified :
  sorted (glob_feed_xml [Sample.feed_45_days; Sample.feed_unreadable;
                         Sample.feed_10_days])
  = [Sample.feed_10_days; Sample.feed_unreadable; Sample.feed_45_days]
  /\ for_feeds Sample.parsedate Sample.strftime Sample.clock false
               [Sample.feed_10_days; Sample.feed_unreadable;
                Sample.feed_45_days]
               (mkCounts 0 0 0) Sample.w0
     = (Raise (OtherException "PermissionError"),
        World 1 ["  [OK  ] feed_new.xml"])
  /\ run_results Sample.parsedate Sample.strftime Sample.clock false
                 [Sample.feed_10_days; Sample.feed_unreadable;
                  Sample.feed_45_days]
                 (mkCounts 0 0 0) Sample.w0
     = [Ok (true, [], []); Raise (OtherException "PermissionError")].
Proof. repeat split. Qed.

(** C9, counterexample. In the same directory no check returns
    [ok = False] and no file is counted as an error, but [main] ends with
    the uncaught [PermissionError] instead of [sys.exit(0)]: the process
    exits with status 1, and no summary is printed. *)
Lemma uncaught_exception_exits_nonzero :
  Sample.run (Some [Sample.feed_45_days; Sample.feed_unreadable;
                    Sample.feed_10_days]) false Sample.w0
  = (Raise (OtherException "PermissionError"),
     World 1 [header "/srv/feeds" 3; "  [OK  ] feed_new.xml"])
  /\ process_exit_status
       (fst (Sample.run (Some [Sample.feed_45_days; Sample.feed_unreadable;
                               Sample.feed_10_days]) false Sample.w0))
     = 1%Z
  /\ count failed
           (run_results Sample.parsedate Sample.strftime Sample.clock false
                        [Sample.feed_10_days; Sample.feed_unreadable;
                         Sample.feed_45_days]
                        (mkCounts 0 0 0)
                        (World 0 [header "/srv/feeds" 3]))
     = 0.
Proof. repeat split. Qed.
